(** * The conversational turn pipeline of [app-ch.py]

    A shallow embedding of the Socket.IO handlers of [src/app-ch.py]
    ([handle_connect], [handle_disconnect], [handle_audio_data]) and of the
    collaborators they call, followed by the properties the specification
    states about them.

    Conventions of the embedding:
    - a Python [str] is the list of its Unicode code points;
    - the payload of an inbound event is any decoded value, a dict or not;
    - a reading of [time.time()] and every duration derived from it is an
      exact rational ([Q]); [round(x, 2)] and [int(x)] are the exact
      roundings of that rational;
    - the process state the handlers touch (the session registry, the lines
      of [stats.jsonl], the events emitted to clients) is threaded
      explicitly, together with a log of the collaborator calls made;
    - what the outside world answers during one turn (clock readings, the
      base64 decoder, the speech-to-text and LLM services, the file system)
      is collected in an environment record [Env]. *)

From Stdlib Require Import QArith Qround Lqa.
From stdpp Require Import strings gmap list fin_maps.

Local Open Scope Z_scope.

(* ===================================================================== *)
(** ** Python strings *)
(* ===================================================================== *)

(** A [str] is a sequence of code points. *)
Abbreviation str := (list N).
Abbreviation bytes := (list Byte.byte).

(** ASCII literals, written as Rocq strings. *)
Fixpoint py (s : String.string) : str :=
  match s with
  | String.EmptyString => []
  | String.String c s' => Ascii.N_of_ascii c :: py s'
  end.

(** [Py_UNICODE_ISSPACE]: the code points [str.strip()] removes. *)
Definition isspace (c : N) : bool :=
  ((9 <=? c) && (c <=? 13)              (* \t \n \v \f \r *)
   || (28 <=? c) && (c <=? 31)          (* FS GS RS US *)
   || (c =? 32)                         (* space *)
   || (c =? 133) || (c =? 160)          (* NEL, NBSP *)
   || (c =? 5760)                       (* U+1680 *)
   || (8192 <=? c) && (c <=? 8202)      (* U+2000 .. U+200A *)
   || (c =? 8232) || (c =? 8233)        (* U+2028, U+2029 *)
   || (c =? 8239) || (c =? 8287)        (* U+202F, U+205F *)
   || (c =? 12288))%N.                  (* U+3000 *)

Fixpoint lstrip (s : str) : str :=
  match s with
  | [] => []
  | c :: s' => if isspace c then lstrip s' else s
  end.

Definition rstrip (s : str) : str := rev (lstrip (rev s)).

(** [s.strip()] *)
Definition strip (s : str) : str := rstrip (lstrip s).

(** Truthiness of a string: [not s] holds exactly for the empty string. *)
Definition falsy (s : str) : bool :=
  match s with [] => true | _ :: _ => false end.

(* ===================================================================== *)
(** ** Numbers *)
(* ===================================================================== *)

(** Rounding to the nearest integer, ties to the even neighbour. *)
Definition round_half_even (x : Q) : Z :=
  let n := Qfloor x in
  match (x - inject_Z n ?= 1 # 2)%Q with
  | Lt => n
  | Gt => n + 1
  | Eq => if Z.even n then n else n + 1
  end.

(** [round(x, 2)]: the nearest multiple of 1/100. *)
Definition round2 (x : Q) : Q := round_half_even (x * 100) # 100.

(** [int(x)]: truncation towards zero. *)
Definition py_int (x : Q) : Z := Z.quot (Qnum x) (Z.pos (Qden x)).

(** [(t1 - t0) * 1000]: the milliseconds between two clock readings. *)
Definition elapsed_ms (t1 t0 : Q) : Q := ((t1 - t0) * 1000)%Q.

(* ===================================================================== *)
(** ** Data model *)
(* ===================================================================== *)

(** Modelled from the spec: the [Session] class of [utils/booking_state.py],
    which is not among the sources.  One Session per connection: its id,
    the ordered history of (user utterance, assistant reply) pairs, and the
    slot values of the booking task. *)
Record Session := mkSession {
  session_id : str;
  history : list (str * str);
  booking_state : gmap str str
}.

(** Modelled from the spec: the empty Session registered by [get_or_create]
    for a connection id that has none. *)
Definition new_session (sid : str) : Session :=
  {| session_id := sid; history := []; booking_state := ∅ |}.

(** Modelled from the spec: [Session.add_to_history] of
    [utils/booking_state.py]; the history is append-only and keeps
    insertion order. *)
Definition add_to_history (user_utterance assistant_reply : str) (s : Session)
  : Session :=
  {| session_id := session_id s;
     history := history s ++ [(user_utterance, assistant_reply)];
     booking_state := booking_state s |}.

(** Modelled from the spec: [get_or_create_session] of
    [utils/booking_state.py], the [get_or_create] of the Session Store.  It
    returns the Session registered for the id, registering an empty one
    first when there is none. *)
Definition get_or_create_session (sid : str) (store : gmap str Session)
  : gmap str Session * Session :=
  match store !! sid with
  | Some s => (store, s)
  | None => (<[sid := new_session sid]> store, new_session sid)
  end.

(** The payload of a [bot_response] event; [latency_ms] is [None] when the
    emitted dict has no such key. *)
Record LatencyMs := mkLatencyMs { backend : Z }.

Record BotResponse := mkBotResponse {
  user_text : str;
  bot_text : str;
  latency_ms : option LatencyMs
}.

(** Outbound events, by name. *)
Inductive Event :=
| status (message : str)
| bot_response (payload : BotResponse)
| error (message : str).

(** The local dict [latency_info] of [handle_audio_data]; field [li_k] is
    the entry of key [k]. *)
Record LatencyInfo := mkLatencyInfo {
  li_audio_conversion : Q;
  li_vad_validation : Q;
  li_silence_trimming : Q;
  li_asr_transcription : Q;
  li_llm_response : Q
}.

(** [structured_data], one line of [stats.jsonl]. *)
Record StatsRecord := mkStatsRecord {
  total : Q;
  conversion : Q;
  vad : Q;
  trim : Q;
  asr : Q;
  llm : Q;
  timestamp : str
}.

(** Calls to collaborators, logged in the order they are made. *)
Inductive Call :=
| call_b64decode (audio_base64 : str)
| call_speech_to_text (audio_bytes : bytes)
| call_get_or_create_session (sid : str)
| call_build_booking_system_prompt (sid : str)
| call_get_llm_response (transcription prompt : str)
| call_add_to_history (sid user_utterance assistant_reply : str)
| call_stats_append (line : StatsRecord).

(** The process state shared by the handlers. *)
Record World := mkWorld {
  sessions : gmap str Session;            (* the Session Store *)
  stats_jsonl : list StatsRecord;         (* lines of stats.jsonl *)
  outbox : list (str * Event);            (* (request.sid, event) emitted *)
  calls : list Call
}.

(** The state of one run of [handle_audio_data]. *)
Record Frame := mkFrame {
  world : World;
  latency_info : LatencyInfo
}.

(** What a collaborator answers: a value, or an exception [e] given by
    [str(e)]. *)
Inductive result (A : Type) : Type :=
| Ok (a : A)
| Err (e : str).
Arguments Ok {A} a.
Arguments Err {A} e.

(** The payload of an inbound event as Socket.IO hands it to a handler:
    any decoded value.  The fields of a dict and the items of a list are
    taken to be strings, as the [audio] field of the event is. *)
Inductive Payload :=
| PyDict (d : gmap str str)
| PyNone
| PyBool (b : bool)
| PyInt (n : Z)
| PyFloat (x : Q)
| PyStr (s : str)
| PyBytes (b : bytes)
| PyList (items : list str).

(** [type(data).__name__] *)
Definition type_name (data : Payload) : str :=
  match data with
  | PyDict _ => py "dict"
  | PyNone => py "NoneType"
  | PyBool _ => py "bool"
  | PyInt _ => py "int"
  | PyFloat _ => py "float"
  | PyStr _ => py "str"
  | PyBytes _ => py "bytes"
  | PyList _ => py "list"
  end.

(** [data.get(key)]: the field or [None] for a dict; any other value has
    no [get] and the attribute access raises [AttributeError]. *)
Definition payload_get (data : Payload) (key : str) : result (option str) :=
  match data with
  | PyDict d => Ok (d !! key)
  | _ => Err (py "'" ++ type_name data ++ py "' object has no attribute 'get'")
  end.

(** The outside world during one turn: the six readings of [time.time()],
    in the order of the source lines that take them, and the answers of the
    collaborators.  [b64decode] is [base64.b64decode]; [speech_to_text] is
    [elevenlabs_client.speech_to_text.convert(...).text] on the decoded
    bytes; [get_llm_response], of [utils/llm.py] and not among the sources,
    is given the transcription and the system prompt; [stats_append] is the
    outcome of opening [stats.jsonl] and writing one line to it. *)
Record Env := mkEnv {
  time_start : Q;          (* line 96 *)
  time_asr_start : Q;      (* line 113 *)
  time_asr_end : Q;        (* line 126 *)
  time_llm_start : Q;      (* line 135 *)
  time_llm_end : Q;        (* line 146 *)
  time_end : Q;            (* line 151 *)
  b64decode : str -> result bytes;
  speech_to_text : bytes -> result str;
  get_llm_response : str -> str -> result str;
  strftime_now : str;      (* datetime.now().strftime(...), line 161 *)
  stats_append : result unit
}.

(* ===================================================================== *)
(** ** Control flow: statements that fall through, return or raise *)
(* ===================================================================== *)

Inductive completion (A : Type) : Type :=
| Normal (a : A)
| Returned
| Raised (e : str).
Arguments Normal {A} a.
Arguments Returned {A}.
Arguments Raised {A} e.

Definition M (A : Type) : Type := Frame -> completion A * Frame.

#[global] Instance M_ret : MRet M := fun A a f => (Normal a, f).

#[global] Instance M_bind : MBind M := fun A B k m f =>
  match m f with
  | (Normal a, f') => k a f'
  | (Returned, f') => (Returned, f')
  | (Raised e, f') => (Raised e, f')
  end.

(** [return] *)
Definition return_ {A} : M A := fun f => (Returned, f).

(** [raise] *)
Definition raise {A} (e : str) : M A := fun f => (Raised e, f).

(** [try: body except Exception as e: handler(e)] *)
Definition try_except {A} (body : M A) (handler : str -> M A) : M A :=
  fun f =>
    match body f with
    | (Raised e, f') => handler e f'
    | r => r
    end.

Definition get_world : M World := fun f => (Normal (world f), f).

Definition modify_world (g : World -> World) : M unit :=
  fun f => (Normal tt, {| world := g (world f); latency_info := latency_info f |}).

Definition get_latency_info : M LatencyInfo :=
  fun f => (Normal (latency_info f), f).

Definition set_latency_info (li : LatencyInfo) : M unit :=
  fun f => (Normal tt, {| world := world f; latency_info := li |}).

Definition log_call (c : Call) (w : World) : World :=
  {| sessions := sessions w; stats_jsonl := stats_jsonl w;
     outbox := outbox w; calls := calls w ++ [c] |}.

(** A call to a collaborator: it is logged, then answers or raises. *)
Definition call {A} (c : Call) (r : result A) : M A :=
  modify_world (log_call c) ;;
  match r with
  | Ok a => mret a
  | Err e => raise e
  end.

(** An operation of the interpreter itself, which answers or raises. *)
Definition lift {A} (r : result A) : M A :=
  match r with
  | Ok a => mret a
  | Err e => raise e
  end.

(** [emit(name, payload)]: delivered to the client of [request.sid]. *)
Definition emit_world (sid : str) (ev : Event) (w : World) : World :=
  {| sessions := sessions w; stats_jsonl := stats_jsonl w;
     outbox := outbox w ++ [(sid, ev)]; calls := calls w |}.

Definition emit (sid : str) (ev : Event) : M unit :=
  modify_world (emit_world sid ev).

(* ===================================================================== *)
(** ** The handlers of [app-ch.py] *)
(* ===================================================================== *)

(** The fixed replies. *)
Definition ellipsis : str := py "...".
(** "（听不清）", the reply when no speech was recognised *)
Definition could_not_hear : str := [65288; 21548; 19981; 28165; 65289]%N.
(** "系统繁忙。", the reply when the LLM call fails *)
Definition system_busy : str := [31995; 32479; 32321; 24537; 12290]%N.

(** [latency_info] as line 98 creates it. *)
Definition latency_info_init : LatencyInfo :=
  {| li_audio_conversion := 0; li_vad_validation := 0; li_silence_trimming := 0;
     li_asr_transcription := 0; li_llm_response := 0 |}.

Definition set_asr_transcription (v : Q) (li : LatencyInfo) : LatencyInfo :=
  {| li_audio_conversion := li_audio_conversion li;
     li_vad_validation := li_vad_validation li;
     li_silence_trimming := li_silence_trimming li;
     li_asr_transcription := v;
     li_llm_response := li_llm_response li |}.

Definition set_llm_response (v : Q) (li : LatencyInfo) : LatencyInfo :=
  {| li_audio_conversion := li_audio_conversion li;
     li_vad_validation := li_vad_validation li;
     li_silence_trimming := li_silence_trimming li;
     li_asr_transcription := li_asr_transcription li;
     li_llm_response := v |}.

(** The effect on the state of the two Session operations.  The handler's
    variable [session] is the object registered in the Store, so
    [session.add_to_history] changes the Store's entry. *)
Definition store_get_or_create (sid : str) (w : World) : World :=
  {| sessions := fst (get_or_create_session sid (sessions w));
     stats_jsonl := stats_jsonl w; outbox := outbox w; calls := calls w |}.

Definition store_add_to_history (sid u r : str) (w : World) : World :=
  {| sessions := alter (add_to_history u r) sid (sessions w);
     stats_jsonl := stats_jsonl w; outbox := outbox w; calls := calls w |}.

Definition append_stats (line : StatsRecord) (w : World) : World :=
  {| sessions := sessions w; stats_jsonl := stats_jsonl w ++ [line];
     outbox := outbox w; calls := calls w |}.

(** [not transcription or transcription.strip() == ""] *)
Definition no_speech (transcription : str) : bool :=
  falsy transcription || falsy (strip transcription).

Section Handlers.

(** [build_booking_system_prompt] of [utils/llm.py], not among the
    sources: any function of the Session. *)
Variable build_booking_system_prompt : Session -> str.

(** Lines 138-145: the LLM call and its [except Exception]. *)
Definition generate (env : Env) (transcription prompt : str) : M str :=
  try_except
    (call (call_get_llm_response transcription prompt)
          (get_llm_response env transcription prompt))
    (fun _ => mret system_busy).

(** The body of the [try] of [handle_audio_data], lines 96-171. *)
Definition audio_data_body (sid : str) (data : Payload) (env : Env)
  : M unit :=
  let start_time := time_start env in
  audio_base64 ← lift (payload_get data (py "audio"));
  match audio_base64 with
  | None => return_                             (* if not audio_base64 *)
  | Some audio_base64 =>
    if falsy audio_base64 then return_ else
    audio_bytes ← call (call_b64decode audio_base64)
                       (b64decode env audio_base64);
    let asr_start := time_asr_start env in
    transcription ← call (call_speech_to_text audio_bytes)
                         (speech_to_text env audio_bytes);
    li ← get_latency_info;
    set_latency_info
      (set_asr_transcription (elapsed_ms (time_asr_end env) asr_start) li) ;;
    if no_speech transcription then
      emit sid (bot_response {| user_text := ellipsis;
                                bot_text := could_not_hear;
                                latency_ms := None |}) ;;
      return_
    else
    let llm_start := time_llm_start env in
    modify_world (log_call (call_get_or_create_session sid)) ;;
    w ← get_world;
    let session := snd (get_or_create_session sid (sessions w)) in
    modify_world (store_get_or_create sid) ;;
    modify_world (log_call (call_build_booking_system_prompt sid)) ;;
    let prompt := build_booking_system_prompt session in
    llm_response ← generate env transcription prompt;
    li ← get_latency_info;
    set_latency_info
      (set_llm_response (elapsed_ms (time_llm_end env) llm_start) li) ;;
    modify_world (log_call (call_add_to_history sid transcription llm_response)) ;;
    modify_world (store_add_to_history sid transcription llm_response) ;;
    let total_latency := elapsed_ms (time_end env) start_time in
    li ← get_latency_info;
    let structured_data :=
      {| total := round2 total_latency;
         conversion := 0;
         vad := 0;
         trim := 0;
         asr := round2 (li_asr_transcription li);
         llm := round2 (li_llm_response li);
         timestamp := strftime_now env |} in
    call (call_stats_append structured_data) (stats_append env) ;;
    modify_world (append_stats structured_data) ;;
    emit sid (bot_response
                {| user_text := transcription;
                   bot_text := llm_response;
                   latency_ms := Some {| backend := py_int total_latency |} |})
  end.

(** [handle_audio_data(data)] for the client [sid = request.sid]: the
    [try] body, and [emit('error', {'message': str(e)})] on any
    exception.  The result is the state when the handler is left. *)
Definition handle_audio_data (sid : str) (data : Payload) (env : Env)
    (w : World) : Frame :=
  snd (try_except (audio_data_body sid data env)
                  (fun e => emit sid (error e))
                  {| world := w; latency_info := latency_info_init |}).

End Handlers.

(** [handle_connect]: acknowledges with a [status] event. *)
Definition handle_connect (sid : str) (w : World) : World :=
  emit_world sid (status (py "Connected to server")) w.

(** [handle_disconnect]: writes a log line and nothing else. *)
Definition handle_disconnect (sid : str) (w : World) : World := w.

(* ===================================================================== *)
(** ** Vocabulary of the statements *)
(* ===================================================================== *)

(** The payload carries a non-empty [audio] field [a]. *)
Definition has_audio (data : Payload) (a : str) : Prop :=
  payload_get data (py "audio") = Ok (Some a) /\ a <> [].

(** The payload is a dict whose [audio] field is absent or empty. *)
Definition no_audio (data : Payload) : Prop :=
  payload_get data (py "audio") = Ok None
  \/ payload_get data (py "audio") = Ok (Some []).

(** The Session a turn for [sid] works on: the registered one, or a new
    one. *)
Definition session_for (sid : str) (w : World) : Session :=
  snd (get_or_create_session sid (sessions w)).

(** The history of [sid] as the Store has it; empty without a Session. *)
Definition history_of (sid : str) (w : World) : list (str * str) :=
  match sessions w !! sid with
  | Some s => history s
  | None => []
  end.

(** The reply of a turn: the generator's answer, or the fallback. *)
Definition reply_of (build_booking_system_prompt : Session -> str)
    (env : Env) (sid transcription : str) (w : World) : str :=
  match get_llm_response env transcription
          (build_booking_system_prompt (session_for sid w)) with
  | Ok r => r
  | Err _ => system_busy
  end.

(** The line a completed turn writes to [stats.jsonl]. *)
Definition stats_line (env : Env) : StatsRecord :=
  {| total := round2 (elapsed_ms (time_end env) (time_start env));
     conversion := 0; vad := 0; trim := 0;
     asr := round2 (elapsed_ms (time_asr_end env) (time_asr_start env));
     llm := round2 (elapsed_ms (time_llm_end env) (time_llm_start env));
     timestamp := strftime_now env |}.

(** The payload a completed turn emits. *)
Definition full_response (env : Env) (transcription reply : str) : BotResponse :=
  {| user_text := transcription;
     bot_text := reply;
     latency_ms :=
       Some {| backend := py_int (elapsed_ms (time_end env) (time_start env)) |} |}.

(** The payload of the no-speech reply. *)
Definition no_speech_response : BotResponse :=
  {| user_text := ellipsis; bot_text := could_not_hear; latency_ms := None |}.

(** [latency_info] once both stages are measured. *)
Definition latency_info_measured (env : Env) : LatencyInfo :=
  set_llm_response (elapsed_ms (time_llm_end env) (time_llm_start env))
    (set_asr_transcription (elapsed_ms (time_asr_end env) (time_asr_start env))
       latency_info_init).

(** Successive clock readings do not decrease. *)
Definition clock_monotone (env : Env) : Prop :=
  (time_start env <= time_asr_start env)%Q /\
  (time_asr_start env <= time_asr_end env)%Q /\
  (time_asr_end env <= time_llm_start env)%Q /\
  (time_llm_start env <= time_llm_end env)%Q /\
  (time_llm_end env <= time_end env)%Q.


(** The state of a turn that got a transcript [t], when its metrics line is
    about to be written: the pair is in the history, nothing is emitted
    yet. *)
Definition generated (build_booking_system_prompt : Session -> str)
    (sid : str) (env : Env) (w : World) (a : str) (b : bytes) (t : str)
  : World :=
  let r := reply_of build_booking_system_prompt env sid t w in
  {| sessions := <[sid := add_to_history t r (session_for sid w)]> (sessions w);
     stats_jsonl := stats_jsonl w;
     outbox := outbox w;
     calls := calls w ++
       [call_b64decode a; call_speech_to_text b;
        call_get_or_create_session sid;
        call_build_booking_system_prompt sid;
        call_get_llm_response t
          (build_booking_system_prompt (session_for sid w));
        call_add_to_history sid t r;
        call_stats_append (stats_line env)] |}.

(** A turn that reaches COMPLETED with transcript [t]: audio present,
    decoded and transcribed to text that is not blank, and the metrics line
    written. *)
Definition completes (data : Payload) (env : Env) (t : str) : Prop :=
  exists a b,
    has_audio data a /\ b64decode env a = Ok b /\
    speech_to_text env b = Ok t /\ no_speech t = false /\
    stats_append env = Ok tt.

(** The places where a turn can fail, and what failing there with the
    exception [e] means. *)
Inductive Failure := decode_error | transcription_error | stats_error.

Definition fails_at (data : Payload) (env : Env) (stage : Failure)
    (e : str) : Prop :=
  match stage with
  | decode_error =>
      exists a, has_audio data a /\ b64decode env a = Err e
  | transcription_error =>
      exists a b, has_audio data a /\ b64decode env a = Ok b /\
                  speech_to_text env b = Err e
  | stats_error =>
      exists a b t, has_audio data a /\ b64decode env a = Ok b /\
                    speech_to_text env b = Ok t /\ no_speech t = false /\
                    stats_append env = Err e
  end.

(* ===================================================================== *)
(** ** Concrete turns *)
(* ===================================================================== *)

Module Scenario.

Definition sid1 : str := py "sid-1".

Definition world0 : World :=
  {| sessions := ∅; stats_jsonl := []; outbox := []; calls := [] |}.

(** A Store where [sid1] already has a Session with one turn. *)
Definition world1 : World :=
  {| sessions :=
       {[ sid1 := {| session_id := sid1;
                     history := [(py "hello", py "hi")];
                     booking_state := ∅ |} ]};
     stats_jsonl := []; outbox := []; calls := [] |}.

Definition prompt (s : Session) : str := py "garage booking assistant".

(** [{'audio': 'GkXfo59C'}], [{'audio': 'AAA'}], [{'audio': ''}], [{}] *)
Definition audio_event : Payload := PyDict {[ py "audio" := py "GkXfo59C" ]}.
Definition bad_audio_event : Payload := PyDict {[ py "audio" := py "AAA" ]}.
Definition empty_audio_event : Payload := PyDict {[ py "audio" := [] ]}.
Definition no_audio_event : Payload := PyDict ∅.

Definition webm : bytes :=
  [Byte.x1a; Byte.x45; Byte.xdf; Byte.xa3; Byte.x9f; Byte.x42].

Definition decode (a : str) : result bytes :=
  if bool_decide (a = py "GkXfo59C") then Ok webm
  else Err (py "Incorrect padding").

(** Clock readings: [us] microseconds after 2024-10-27 03:33:20 UTC. *)
Definition after (us : Z) : Q := (1730000000 + (us # 1000000))%Q.

(** A turn in which the services answer [stt], [reply] and [stats]; the
    clock is read at 0, 15.625, 312.5, 328.125, 1000 and 1093.75 ms, all
    multiples of 1/64 s. *)
Definition env_of (stt reply : result str) (stats : result unit) : Env :=
  {| time_start := after 0; time_asr_start := after 15625;
     time_asr_end := after 312500; time_llm_start := after 328125;
     time_llm_end := after 1000000; time_end := after 1093750;
     b64decode := decode;
     speech_to_text := fun _ => stt;
     get_llm_response := fun _ _ => reply;
     strftime_now := py "2024-10-27 03:33:21";
     stats_append := stats |}.

(** "你好" answered by "好的" *)
Definition ni_hao : str := [20320; 22909]%N.
Definition hao_de : str := [22909; 30340]%N.
(** "明天" *)
Definition ming_tian : str := [26126; 22825]%N.

Definition env_ok : Env := env_of (Ok ni_hao) (Ok hao_de) (Ok tt).
Definition env_ok2 : Env := env_of (Ok ming_tian) (Ok hao_de) (Ok tt).
Definition env_empty_reply : Env := env_of (Ok ni_hao) (Ok []) (Ok tt).
Definition env_silence : Env := env_of (Ok []) (Ok hao_de) (Ok tt).
Definition env_stt_down : Env :=
  env_of (Err (py "503 Service Unavailable")) (Ok hao_de) (Ok tt).

(** A turn on a clock that ticks every 1/64 s: transcription takes
    46.875 ms, generation 109.375 ms, the whole turn 156.25 ms. *)
Definition env_rounding : Env :=
  {| time_start := after 0; time_asr_start := after 0;
     time_asr_end := after 46875;
     time_llm_start := after 46875;
     time_llm_end := after 156250;
     time_end := after 156250;
     b64decode := decode;
     speech_to_text := fun _ => Ok ni_hao;
     get_llm_response := fun _ _ => Ok hao_de;
     strftime_now := py "2024-10-27 03:33:20";
     stats_append := Ok tt |}.

End Scenario.

(* ===================================================================== *)
(** ** A turn at a glance *)
(* ===================================================================== *)

(** The transcript a turn hands to the generator: the audio field is there,
    decodes, and is transcribed to text that is not blank. *)
Definition transcript_of (data : Payload) (env : Env) : option str :=
  match payload_get data (py "audio") with
  | Err _ | Ok None => None
  | Ok (Some a) =>
      if falsy a then None else
      match b64decode env a with
      | Err _ => None
      | Ok b =>
          match speech_to_text env b with
          | Err _ => None
          | Ok t => if no_speech t then None else Some t
          end
      end
  end.

(** The events a turn sends to its client. *)
Definition turn_events (build_booking_system_prompt : Session -> str)
    (sid : str) (data : Payload) (env : Env) (w : World) : list Event :=
  match payload_get data (py "audio") with
  | Err e => [error e]
  | Ok None => []
  | Ok (Some a) =>
      if falsy a then [] else
      match b64decode env a with
      | Err e => [error e]
      | Ok b =>
          match speech_to_text env b with
          | Err e => [error e]
          | Ok t =>
              if no_speech t then [bot_response no_speech_response] else
              match stats_append env with
              | Err e => [error e]
              | Ok _ =>
                  [bot_response
                     (full_response env t
                        (reply_of build_booking_system_prompt env sid t w))]
              end
          end
      end
  end.

(** The lines a turn adds to [stats.jsonl]. *)
Definition turn_stats (data : Payload) (env : Env) : list StatsRecord :=
  match transcript_of data env, stats_append env with
  | Some _, Ok _ => [stats_line env]
  | _, _ => []
  end.

(** The collaborator calls of a turn that runs to its end, in order. *)
Definition pipeline_calls (build_booking_system_prompt : Session -> str)
    (sid : str) (env : Env) (w : World) (a : str) (b : bytes) (t : str)
  : list Call :=
  [call_b64decode a; call_speech_to_text b;
   call_get_or_create_session sid;
   call_build_booking_system_prompt sid;
   call_get_llm_response t (build_booking_system_prompt (session_for sid w));
   call_add_to_history sid t (reply_of build_booking_system_prompt env sid t w);
   call_stats_append (stats_line env)].

(** A [bot_response] that carries [latency_ms]. *)
Definition has_latency (ev : Event) : bool :=
  match ev with
  | bot_response p => match latency_ms p with Some _ => true | None => false end
  | _ => false
  end.

(* ===================================================================== *)
(** ** The handlers over a sequence of events *)
(* ===================================================================== *)

(** The events Socket.IO dispatches to the three handlers; [request.sid]
    is the sender, and an [audio_data] event comes with what the outside
    world answers while it is handled. *)
Inductive Inbound :=
| on_connect (sid : str)
| on_disconnect (sid : str)
| on_audio_data (sid : str) (data : Payload) (env : Env).

Definition sender (ev : Inbound) : str :=
  match ev with
  | on_connect sid | on_disconnect sid | on_audio_data sid _ _ => sid
  end.

Definition dispatch (build_booking_system_prompt : Session -> str)
    (ev : Inbound) (w : World) : World :=
  match ev with
  | on_connect sid => handle_connect sid w
  | on_disconnect sid => handle_disconnect sid w
  | on_audio_data sid data env =>
      world (handle_audio_data build_booking_system_prompt sid data env w)
  end.

(** The events handled one after the other. *)
Fixpoint serve (build_booking_system_prompt : Session -> str)
    (evs : list Inbound) (w : World) : World :=
  match evs with
  | [] => w
  | ev :: evs' =>
      serve build_booking_system_prompt evs'
            (dispatch build_booking_system_prompt ev w)
  end.

(** The events that are answered: a [connect], and an [audio_data] whose
    payload is not a dict or has a non-empty [audio] field. *)
Definition answered (ev : Inbound) : bool :=
  match ev with
  | on_connect _ => true
  | on_disconnect _ => false
  | on_audio_data _ data _ =>
      match payload_get data (py "audio") with
      | Err _ | Ok (Some (_ :: _)) => true
      | Ok None | Ok (Some []) => false
      end
  end.

Definition is_audio_data (ev : Inbound) : bool :=
  match ev with on_audio_data _ _ _ => true | _ => false end.

(** What the client [c] has been sent. *)
Definition delivered_to (c : str) (w : World) : list Event :=
  (filter (fun p : str * Event => p.1 = c) (outbox w)).*2.

(** The records whose reserved fields are zero. *)
Definition reserved_zero (r : StatsRecord) : Prop :=
  conversion r = 0%Q /\ vad r = 0%Q /\ trim r = 0%Q.

(** [y] is within 0.005 of [x]. *)
Definition within_half_cent (y x : Q) : Prop :=
  (x - (1 # 200) <= y)%Q /\ (y <= x + (1 # 200))%Q.

(* ===================================================================== *)
(** ** Start-up *)
(* ===================================================================== *)

(** The module-level code of [app-ch.py], lines 21-69, as far as it decides
    whether the server comes up and with which settings. *)

Record Config := mkConfig {
  ELEVENLABS_API_KEY : str;
  LLM_PROVIDER : str;
  OPENROUTER_API_KEY : option str;
  COHERE_API_KEY : option str
}.

Inductive BootCall :=
| call_makedirs (directory : str)
| call_initialize_calendar
| call_initialize_vad.

(** The outside world at start-up: the process environment once
    [load_dotenv()] has run, [str.lower], and the outcomes of creating a
    directory, of [initialize_calendar()] and of [initialize_vad()]. *)
Record BootEnv := mkBootEnv {
  environ : gmap str str;
  lower : str -> str;
  makedirs : str -> result unit;
  initialize_calendar : result unit;
  initialize_vad : result unit
}.

(** [os.path.join(a, b)] for a relative [b], with the POSIX separator. *)
Definition path_join (a b : str) : str := a ++ py "/" ++ b.

Definition RECORDINGS_DIR : str := py "recordings".
Definition COMBINED_AUDIO_DIR : str := path_join RECORDINGS_DIR (py "combined_audio").
Definition METADATA_DIR : str := path_join RECORDINGS_DIR (py "metadata").

(** [for directory in dirs: os.makedirs(directory, exist_ok=True)]; the
    result is the calls made and the first exception, if any. *)
Fixpoint make_directories (benv : BootEnv) (dirs : list str)
  : list BootCall * result unit :=
  match dirs with
  | [] => ([], Ok tt)
  | d :: dirs' =>
      match makedirs benv d with
      | Err e => ([call_makedirs d], Err e)
      | Ok _ =>
          let '(cs, r) := make_directories benv dirs' in
          (call_makedirs d :: cs, r)
      end
  end.

(** What the import leaves behind: the calls made, the messages logged at
    ERROR or WARNING level, and the settings or the exception that ends the
    import. *)
Record Boot := mkBoot {
  boot_calls : list BootCall;
  boot_log : list str;
  boot_result : result Config
}.

Definition key_missing : str := py "Please set ELEVENLABS_API_KEY in .env file".

Definition vad_warnings (e : str) : list str :=
  [py "VAD initialization warning (likely torchcodec): " ++ e;
   py "Continuing without VAD optimization or using fallback..."].

Definition startup (benv : BootEnv) : Boot :=
  match environ benv !! py "ELEVENLABS_API_KEY" with
  | None => mkBoot [] [py "ELEVENLABS_API_KEY not found!"] (Err key_missing)
  | Some key =>
      if falsy key
      then mkBoot [] [py "ELEVENLABS_API_KEY not found!"] (Err key_missing)
      else
        let provider :=
          lower benv (default (py "cohere") (environ benv !! py "LLM_PROVIDER")) in
        let config :=
          {| ELEVENLABS_API_KEY := key;
             LLM_PROVIDER := provider;
             OPENROUTER_API_KEY := environ benv !! py "OPENROUTER_API_KEY";
             COHERE_API_KEY := environ benv !! py "COHERE_API_KEY" |} in
        match make_directories benv [COMBINED_AUDIO_DIR; METADATA_DIR] with
        | (cs, Err e) => mkBoot cs [] (Err e)
        | (cs, Ok _) =>
            match initialize_calendar benv with
            | Err e => mkBoot (cs ++ [call_initialize_calendar]) [] (Err e)
            | Ok _ =>
                let cs' := cs ++ [call_initialize_calendar; call_initialize_vad] in
                match initialize_vad benv with
                | Ok _ => mkBoot cs' [] (Ok config)
                | Err e => mkBoot cs' (vad_warnings e) (Ok config)
                end
            end
        end
  end.

(* ===================================================================== *)
(** ** Concrete runs *)
(* ===================================================================== *)

Module Run.

Definition sid2 : str := py "sid-2".


(** Two clients: both connect, each sends one chunk, the first leaves and
    the second sends a chunk with no speech. *)
Definition two_clients : list Inbound :=
  [on_connect Scenario.sid1;
   on_connect sid2;
   on_audio_data Scenario.sid1 Scenario.audio_event Scenario.env_ok;
   on_audio_data sid2 Scenario.audio_event Scenario.env_ok2;
   on_disconnect Scenario.sid1;
   on_audio_data sid2 Scenario.audio_event Scenario.env_silence].

Definition ascii_lower (s : str) : str :=
  map (fun c => if ((65 <=? c) && (c <=? 90))%N then (c + 32)%N else c) s.

Definition boot (vars : gmap str str) (vad : result unit) : BootEnv :=
  {| environ := vars;
     lower := ascii_lower;
     makedirs := fun _ => Ok tt;
     initialize_calendar := Ok tt;
     initialize_vad := vad |}.

Definition vars_ok : gmap str str :=
  {[ py "ELEVENLABS_API_KEY" := py "sk_test"; py "LLM_PROVIDER" := py "OpenRouter" ]}.

Definition vars_empty_key : gmap str str :=
  {[ py "ELEVENLABS_API_KEY" := []; py "LLM_PROVIDER" := py "cohere" ]}.

End Run.

(* ===================================================================== *)
(** ** Rounding and durations *)
(* ===================================================================== *)

Lemma round_half_even_cases (x : Q) :
  round_half_even x = Qfloor x \/ round_half_even x = Qfloor x + 1.
Proof.
  unfold round_half_even.
  destruct (x - inject_Z (Qfloor x) ?= 1 # 2)%Q; [destruct (Z.even _) | |]; auto.
Qed.

Lemma round_half_even_lower (x : Q) :
  (x - (1 # 2) <= inject_Z (round_half_even x))%Q.
Proof.
  unfold round_half_even.
  pose proof (Qfloor_le x) as Hlo. pose proof (Qlt_floor x) as Hhi.
  rewrite inject_Z_plus in Hhi. change (inject_Z 1) with 1%Q in Hhi.
  destruct (x - inject_Z (Qfloor x) ?= 1 # 2)%Q eqn:E.
  - apply Qeq_alt in E. destruct (Z.even _); rewrite ?inject_Z_plus; change (inject_Z 1) with 1%Q; lra.
  - apply Qlt_alt in E. lra.
  - rewrite inject_Z_plus. change (inject_Z 1) with 1%Q. lra.
Qed.

Lemma round_half_even_upper (x : Q) :
  (inject_Z (round_half_even x) <= x + (1 # 2))%Q.
Proof.
  unfold round_half_even.
  pose proof (Qfloor_le x) as Hlo. pose proof (Qlt_floor x) as Hhi.
  rewrite inject_Z_plus in Hhi. change (inject_Z 1) with 1%Q in Hhi.
  destruct (x - inject_Z (Qfloor x) ?= 1 # 2)%Q eqn:E.
  - apply Qeq_alt in E. destruct (Z.even _); rewrite ?inject_Z_plus; change (inject_Z 1) with 1%Q; lra.
  - lra.
  - apply Qgt_alt in E. rewrite inject_Z_plus. change (inject_Z 1) with 1%Q. lra.
Qed.

Lemma round_half_even_nonneg (x : Q) : (0 <= x)%Q -> 0 <= round_half_even x.
Proof.
  intros Hx. apply Qfloor_resp_le in Hx. change (Qfloor 0) with 0 in Hx.
  destruct (round_half_even_cases x) as [-> | ->]; lia.
Qed.

Lemma round2_nonneg (x : Q) : (0 <= x)%Q -> (0 <= round2 x)%Q.
Proof.
  intros Hx. unfold round2.
  assert (0 <= round_half_even (x * 100)) as H
    by (apply round_half_even_nonneg; lra).
  unfold Qle; simpl. lia.
Qed.

Lemma round2_sum_bound (a b c : Q) :
  (a + b <= c)%Q -> (round2 a + round2 b <= round2 c + (1 # 100))%Q.
Proof.
  intros Hsum. unfold round2.
  pose proof (round_half_even_upper (a * 100)) as Ha.
  pose proof (round_half_even_upper (b * 100)) as Hb.
  pose proof (round_half_even_lower (c * 100)) as Hc.
  set (A := round_half_even (a * 100)) in *.
  set (B := round_half_even (b * 100)) in *.
  set (C := round_half_even (c * 100)) in *.
  assert (A + B < C + 2) as Hz.
  { rewrite Zlt_Qlt, !inject_Z_plus. change (inject_Z 2) with 2%Q. lra. }
  unfold Qle, Qplus; simpl. lia.
Qed.

Lemma elapsed_ms_nonneg (t1 t0 : Q) : (t0 <= t1)%Q -> (0 <= elapsed_ms t1 t0)%Q.
Proof. unfold elapsed_ms. intros H. lra. Qed.

Lemma elapsed_ms_stages (t0 t1 t2 t3 t4 t5 : Q) :
  (t0 <= t1)%Q -> (t2 <= t3)%Q -> (t4 <= t5)%Q ->
  (elapsed_ms t2 t1 + elapsed_ms t4 t3 <= elapsed_ms t5 t0)%Q.
Proof. unfold elapsed_ms. intros. lra. Qed.

(* ===================================================================== *)
(** ** Blank transcripts *)
(* ===================================================================== *)


Lemma lstrip_nil_iff (s : str) : lstrip s = [] <-> forallb isspace s = true.
Proof.
  induction s as [| c s IH]; simpl; [tauto |].
  destruct (isspace c); simpl; [exact IH | split; discriminate].
Qed.

Lemma lstrip_head (s s' : str) (c : N) :
  lstrip s = c :: s' -> isspace c = false.
Proof.
  induction s as [| d s IH]; simpl; [discriminate |].
  destruct (isspace d) eqn:Ed; [exact IH | congruence].
Qed.

Lemma strip_nil_iff (s : str) : strip s = [] <-> forallb isspace s = true.
Proof.
  unfold strip, rstrip. split.
  - intros H. apply lstrip_nil_iff.
    destruct (lstrip s) as [| c s'] eqn:E; [reflexivity | exfalso].
    assert (lstrip (rev (c :: s')) = []) as H'.
    { destruct (lstrip (rev (c :: s'))) as [| d l]; [reflexivity |].
      simpl in H. destruct (rev l); discriminate. }
    apply lstrip_nil_iff in H'. rewrite forallb_forall in H'.
    assert (isspace c = true) as Hc by (apply H', in_rev; rewrite rev_involutive; left; reflexivity).
    apply lstrip_head in E. congruence.
  - intros H. apply lstrip_nil_iff in H. rewrite H. reflexivity.
Qed.

Lemma no_speech_iff (t : str) : no_speech t = true <-> forallb isspace t = true.
Proof.
  unfold no_speech. rewrite orb_true_iff. split.
  - intros [H | H].
    + destruct t; [reflexivity | discriminate].
    + apply strip_nil_iff. destruct (strip t); [reflexivity | discriminate].
  - intros H. right. apply strip_nil_iff in H. rewrite H. reflexivity.
Qed.

(* ===================================================================== *)
(** ** The paths through [handle_audio_data] *)
(* ===================================================================== *)

(** One step of symbolic execution of the handler. *)
Ltac run_step := cbv beta iota zeta delta
  [handle_audio_data try_except audio_data_body mbind M_bind mret M_ret call
   emit modify_world get_world get_latency_info set_latency_info return_ raise
   lift generate snd fst world latency_info].

Lemma falsy_false (a : str) : a <> [] -> falsy a = false.
Proof. destruct a; [congruence | reflexivity]. Qed.

Lemma sessions_after_turn (sid u r : str) (store : gmap str Session) :
  alter (add_to_history u r) sid (get_or_create_session sid store).1
  = <[sid := add_to_history u r (get_or_create_session sid store).2]> store.
Proof.
  unfold get_or_create_session. apply map_eq. intros k.
  destruct (store !! sid) as [s |] eqn:E; simpl.
  - rewrite lookup_alter, lookup_insert.
    case_decide; subst; [rewrite E |]; reflexivity.
  - rewrite lookup_alter, !lookup_insert.
    case_decide; subst; [rewrite decide_True by reflexivity |]; reflexivity.
Qed.

Section Paths.
Variable bp : Session -> str.
Variables (sid : str) (data : Payload) (env : Env) (w : World).

Lemma run_no_audio :
  no_audio data ->
  handle_audio_data bp sid data env w
  = {| world := w; latency_info := latency_info_init |}.
Proof.
  intros [H | H]; unfold handle_audio_data, audio_data_body; run_step;
    rewrite H; reflexivity.
Qed.

Lemma run_payload_error (e : str) :
  payload_get data (py "audio") = Err e ->
  handle_audio_data bp sid data env w
  = {| world := emit_world sid (error e) w;
       latency_info := latency_info_init |}.
Proof.
  intros H. unfold handle_audio_data, audio_data_body. run_step.
  rewrite H. reflexivity.
Qed.

Lemma run_decode_error (a e : str) :
  has_audio data a -> b64decode env a = Err e ->
  handle_audio_data bp sid data env w
  = {| world := emit_world sid (error e) (log_call (call_b64decode a) w);
       latency_info := latency_info_init |}.
Proof.
  intros [H1 H2%falsy_false] H3. unfold handle_audio_data, audio_data_body.
  run_step. rewrite H1. run_step. rewrite H2. run_step.
  rewrite H3. reflexivity.
Qed.

Lemma run_transcription_error (a : str) (b : bytes) (e : str) :
  has_audio data a -> b64decode env a = Ok b -> speech_to_text env b = Err e ->
  handle_audio_data bp sid data env w
  = {| world := emit_world sid (error e)
                  (log_call (call_speech_to_text b)
                     (log_call (call_b64decode a) w));
       latency_info := latency_info_init |}.
Proof.
  intros [H1 H2%falsy_false] H3 H4. unfold handle_audio_data, audio_data_body.
  run_step. rewrite H1. run_step. rewrite H2. run_step.
  rewrite H3. run_step. rewrite H4. reflexivity.
Qed.

Lemma run_no_speech (a : str) (b : bytes) (t : str) :
  has_audio data a -> b64decode env a = Ok b -> speech_to_text env b = Ok t ->
  no_speech t = true ->
  handle_audio_data bp sid data env w
  = {| world := emit_world sid (bot_response no_speech_response)
                  (log_call (call_speech_to_text b)
                     (log_call (call_b64decode a) w));
       latency_info :=
         set_asr_transcription
           (elapsed_ms (time_asr_end env) (time_asr_start env))
           latency_info_init |}.
Proof.
  intros [H1 H2%falsy_false] H3 H4 H5. unfold handle_audio_data, audio_data_body.
  run_step. rewrite H1. run_step. rewrite H2. run_step.
  rewrite H3. run_step. rewrite H4. run_step.
  rewrite H5. reflexivity.
Qed.

Lemma run_stats_error (a : str) (b : bytes) (t e : str) :
  has_audio data a -> b64decode env a = Ok b -> speech_to_text env b = Ok t ->
  no_speech t = false -> stats_append env = Err e ->
  handle_audio_data bp sid data env w
  = {| world := emit_world sid (error e) (generated bp sid env w a b t);
       latency_info := latency_info_measured env |}.
Proof.
  intros [H1 H2%falsy_false] H3 H4 H5 H6. unfold handle_audio_data, audio_data_body.
  run_step. rewrite H1. run_step. rewrite H2. run_step.
  rewrite H3. run_step. rewrite H4. run_step.
  rewrite H5. run_step. unfold generated, reply_of, session_for.
  destruct (get_llm_response env t _); run_step; rewrite H6; run_step;
    unfold emit_world, log_call, store_add_to_history, store_get_or_create; simpl;
    rewrite sessions_after_turn, <- !app_assoc; reflexivity.
Qed.

Lemma run_completed (a : str) (b : bytes) (t : str) :
  has_audio data a -> b64decode env a = Ok b -> speech_to_text env b = Ok t ->
  no_speech t = false -> stats_append env = Ok tt ->
  handle_audio_data bp sid data env w
  = {| world := emit_world sid
                  (bot_response (full_response env t (reply_of bp env sid t w)))
                  (append_stats (stats_line env) (generated bp sid env w a b t));
       latency_info := latency_info_measured env |}.
Proof.
  intros [H1 H2%falsy_false] H3 H4 H5 H6. unfold handle_audio_data, audio_data_body.
  run_step. rewrite H1. run_step. rewrite H2. run_step.
  rewrite H3. run_step. rewrite H4. run_step.
  rewrite H5. run_step. unfold generated, reply_of, session_for.
  destruct (get_llm_response env t _); run_step; rewrite H6; run_step;
    unfold emit_world, append_stats, log_call, store_add_to_history, store_get_or_create; simpl;
    rewrite sessions_after_turn, <- !app_assoc; reflexivity.
Qed.
End Paths.

(* ===================================================================== *)
(** ** Sample runs *)
(* ===================================================================== *)

Example strip_sample : strip (py "  ni hao 	") = py "ni hao".
Proof. reflexivity. Qed.

(** An ideographic space followed by a space is no speech. *)
Example no_speech_sample : no_speech [12288; 32]%N = true.
Proof. reflexivity. Qed.

Example round2_samples :
  round2 (46875 # 1000) = 4688 # 100 /\ round2 (15625 # 100) = 15625 # 100
  /\ py_int (15625 # 100) = 156 /\ py_int (- (3 # 2)) = -1.
Proof. repeat split. Qed.

Example connect_sample :
  outbox (handle_connect Scenario.sid1 Scenario.world0)
  = [(Scenario.sid1, status (py "Connected to server"))].
Proof. reflexivity. Qed.

Example no_audio_sample :
  world (handle_audio_data Scenario.prompt Scenario.sid1
           Scenario.no_audio_event Scenario.env_ok Scenario.world0)
  = Scenario.world0.
Proof. vm_compute. reflexivity. Qed.

Example decode_failure_sample :
  outbox (world (handle_audio_data Scenario.prompt Scenario.sid1
                   Scenario.bad_audio_event Scenario.env_ok Scenario.world0))
  = [(Scenario.sid1, error (py "Incorrect padding"))].
Proof. vm_compute. reflexivity. Qed.

(* ===================================================================== *)
(** ** Histories *)
(* ===================================================================== *)

Lemma history_session_for (sid : str) (w : World) :
  history (session_for sid w) = history_of sid w.
Proof.
  unfold session_for, history_of, get_or_create_session.
  destruct (sessions w !! sid); reflexivity.
Qed.

Lemma history_of_generated bp sid env w a b t :
  history_of sid (generated bp sid env w a b t)
  = history_of sid w ++ [(t, reply_of bp env sid t w)].
Proof.
  unfold history_of at 1. unfold generated. cbn [sessions].
  rewrite lookup_insert_eq. cbn [history add_to_history].
  rewrite history_session_for. reflexivity.
Qed.

Lemma history_of_generated_other bp sid env w a b t sid' :
  sid' <> sid ->
  history_of sid' (generated bp sid env w a b t) = history_of sid' w.
Proof.
  intros Hne. unfold history_of, generated. cbn [sessions].
  rewrite lookup_insert_ne by congruence. reflexivity.
Qed.

(* ===================================================================== *)
(** ** Properties of the turn pipeline *)
(* ===================================================================== *)



(** C2, as amended.  A turn with non-empty audio that is transcribed to
    text that is not blank, whose generation answers [r] and whose metrics
    line is written, emits exactly one [bot_response], carrying the
    transcript and the generator's answer as it is, and appends exactly one
    metrics record.  When the clock readings of the turn do not decrease,
    [asr] and [llm] are non-negative and [total] is at least
    [asr + llm - 0.01]: the three fields are rounded separately. *)
Theorem C2_completed_turn
    (bp : Session -> str) (sid : str) (data : Payload) (env : Env)
    (w : World) (t r : str) :
  completes data env t ->
  get_llm_response env t (bp (session_for sid w)) = Ok r ->
  let w' := world (handle_audio_data bp sid data env w) in
  outbox w' = outbox w ++ [(sid, bot_response (full_response env t r))]
  /\ stats_jsonl w' = stats_jsonl w ++ [stats_line env]
  /\ (clock_monotone env ->
      (0 <= asr (stats_line env))%Q /\ (0 <= llm (stats_line env))%Q /\
      (asr (stats_line env) + llm (stats_line env)
       <= total (stats_line env) + (1 # 100))%Q).
Proof.
  intros (a & b & Haud & Hd & Ht & Hn & Hs) Hr. cbv zeta.
  rewrite (run_completed _ _ _ _ _ a b t) by assumption.
  unfold reply_of. rewrite Hr. split; [reflexivity |]. split; [reflexivity |].
  intros (H1 & H2 & H3 & H4 & H5). cbn [stats_line asr llm total].
  split; [| split].
  - apply round2_nonneg, elapsed_ms_nonneg, H2.
  - apply round2_nonneg, elapsed_ms_nonneg, H4.
  - apply round2_sum_bound, elapsed_ms_stages; assumption.
Qed.

Lemma C2_completed_turn_witness :
  let w' := world (handle_audio_data Scenario.prompt Scenario.sid1
                     Scenario.audio_event Scenario.env_ok Scenario.world0) in
  outbox w' = [(Scenario.sid1,
                bot_response {| user_text := Scenario.ni_hao;
                                bot_text := Scenario.hao_de;
                                latency_ms := Some {| backend := 1093 |} |})]
  /\ stats_jsonl w' = [stats_line Scenario.env_ok]
  /\ (0 <= asr (stats_line Scenario.env_ok))%Q
  /\ (0 <= llm (stats_line Scenario.env_ok))%Q
  /\ (asr (stats_line Scenario.env_ok) + llm (stats_line Scenario.env_ok)
      <= total (stats_line Scenario.env_ok) + (1 # 100))%Q.
Proof.
  assert (completes Scenario.audio_event Scenario.env_ok Scenario.ni_hao) as Hc.
  { exists (py "GkXfo59C"), Scenario.webm.
    repeat split; try reflexivity. discriminate. }
  assert (clock_monotone Scenario.env_ok) as Hm.
  { repeat split; unfold Qle; simpl; lia. }
  destruct (C2_completed_turn Scenario.prompt Scenario.sid1 Scenario.audio_event
              Scenario.env_ok Scenario.world0 Scenario.ni_hao Scenario.hao_de
              Hc eq_refl) as (Ho & Hs & Hq).
  split; [exact Ho |]. split; [exact Hs |]. exact (Hq Hm).
Defined.

(** C2 as stated fails.  In the first turn the generator succeeds with an
    empty answer, and the [bot_response] carries an empty [bot_text].  In
    the second the clock never goes back, yet the record written has
    [total = 156.25 < 156.26 = asr + llm]: 46.875 and 109.375 are each
    rounded up. *)
Lemma C2_counterexample :
  (completes Scenario.audio_event Scenario.env_empty_reply Scenario.ni_hao
   /\ get_llm_response Scenario.env_empty_reply Scenario.ni_hao
        (Scenario.prompt (session_for Scenario.sid1 Scenario.world0)) = Ok []
   /\ exists p,
        outbox (world (handle_audio_data Scenario.prompt Scenario.sid1
                         Scenario.audio_event Scenario.env_empty_reply
                         Scenario.world0))
        = [(Scenario.sid1, bot_response p)] /\ bot_text p = [])
  /\
  (completes Scenario.audio_event Scenario.env_rounding Scenario.ni_hao
   /\ get_llm_response Scenario.env_rounding Scenario.ni_hao
        (Scenario.prompt (session_for Scenario.sid1 Scenario.world0))
      = Ok Scenario.hao_de
   /\ clock_monotone Scenario.env_rounding
   /\ exists rec,
        stats_jsonl (world (handle_audio_data Scenario.prompt Scenario.sid1
                              Scenario.audio_event Scenario.env_rounding
                              Scenario.world0))
        = [rec]
        /\ (total rec == 15625 # 100)%Q
        /\ (asr rec + llm rec == 15626 # 100)%Q
        /\ ~ (asr rec + llm rec <= total rec)%Q).
Proof.
  split.
  - split; [| split; [reflexivity |]].
    + exists (py "GkXfo59C"), Scenario.webm.
      repeat split; try reflexivity. discriminate.
    + eexists. split; [vm_compute; reflexivity | reflexivity].
  - split; [| split; [reflexivity | split]].
    + exists (py "GkXfo59C"), Scenario.webm.
      repeat split; try reflexivity. discriminate.
    + repeat split; unfold Qle; simpl; lia.
    + eexists. split; [vm_compute; reflexivity |].
      repeat split; try reflexivity.
      intros H. vm_compute in H. apply H. reflexivity.
Qed.

(** C3, as amended.  A [disconnect] event leaves the Session Store as it
    is: nothing is evicted.  A turn arriving afterwards for the same id is
    served like any other: it works on the Session still registered, or on
    a new one that [get_or_create_session] registers, appends its pair to
    that Session's history and is answered with a [bot_response], not with
    an error. *)
Theorem C3_disconnect_keeps_session
    (bp : Session -> str) (sid : str) (data : Payload) (env : Env)
    (w : World) (t : str) :
  completes data env t ->
  let w1 := handle_disconnect sid w in
  let w2 := world (handle_audio_data bp sid data env w1) in
  sessions w1 = sessions w
  /\ sessions w2 !! sid
     = Some (add_to_history t (reply_of bp env sid t w) (session_for sid w))
  /\ outbox w2
     = outbox w ++ [(sid, bot_response
                            (full_response env t (reply_of bp env sid t w)))].
Proof.
  intros (a & b & Haud & Hd & Ht & Hn & Hs). cbv zeta. unfold handle_disconnect.
  rewrite (run_completed _ _ _ _ _ a b t) by assumption.
  split; [reflexivity |]. split; [| reflexivity].
  cbn [world emit_world append_stats generated sessions].
  apply lookup_insert_eq.
Qed.

Lemma C3_disconnect_keeps_session_witness :
  let w1 := handle_disconnect Scenario.sid1 Scenario.world1 in
  let w2 := world (handle_audio_data Scenario.prompt Scenario.sid1
                     Scenario.audio_event Scenario.env_ok w1) in
  sessions w1 = sessions Scenario.world1
  /\ sessions w2 !! Scenario.sid1
     = Some {| session_id := Scenario.sid1;
               history := [(py "hello", py "hi");
                           (Scenario.ni_hao, Scenario.hao_de)];
               booking_state := ∅ |}
  /\ outbox w2
     = [(Scenario.sid1,
         bot_response (full_response Scenario.env_ok Scenario.ni_hao
                                     Scenario.hao_de))].
Proof.
  assert (completes Scenario.audio_event Scenario.env_ok Scenario.ni_hao) as Hc.
  { exists (py "GkXfo59C"), Scenario.webm.
    repeat split; try reflexivity. discriminate. }
  exact (C3_disconnect_keeps_session Scenario.prompt Scenario.sid1
           Scenario.audio_event Scenario.env_ok Scenario.world1
           Scenario.ni_hao Hc).
Defined.

(** C3 as stated fails.  After [disconnect] the Session of the connection
    is still in the Store, and a later turn for that id is answered with a
    [bot_response]; where the Store had no Session for the id, the later
    turn registers one. *)
Lemma C3_counterexample :
  (let w1 := handle_disconnect Scenario.sid1 Scenario.world1 in
   let w2 := world (handle_audio_data Scenario.prompt Scenario.sid1
                      Scenario.audio_event Scenario.env_ok w1) in
   is_Some (sessions w1 !! Scenario.sid1)
   /\ exists p, outbox w2 = [(Scenario.sid1, bot_response p)])
  /\
  (let w1 := handle_disconnect Scenario.sid1 Scenario.world0 in
   let w2 := world (handle_audio_data Scenario.prompt Scenario.sid1
                      Scenario.audio_event Scenario.env_ok w1) in
   sessions w1 !! Scenario.sid1 = None
   /\ is_Some (sessions w2 !! Scenario.sid1)).
Proof.
  split; cbv zeta.
  - split.
    + eexists. vm_compute. reflexivity.
    + eexists. vm_compute. reflexivity.
  - split.
    + reflexivity.
    + eexists. vm_compute. reflexivity.
Qed.




(** C5.  When the transcript is empty or consists of whitespace only, the
    handler emits a [bot_response] with [user_text = "..."] and the fixed
    "could not hear" text, makes no call to the turn generator, appends no
    metrics record and leaves every Session, hence every history, as it
    was. *)
Theorem C5_blank_transcript
    (bp : Session -> str) (sid : str) (data : Payload) (env : Env)
    (w : World) (a : str) (b : bytes) (t : str) :
  has_audio data a ->
  b64decode env a = Ok b ->
  speech_to_text env b = Ok t ->
  forallb isspace t = true ->
  let w' := world (handle_audio_data bp sid data env w) in
  outbox w' = outbox w ++ [(sid, bot_response {| user_text := py "...";
                                                 bot_text := could_not_hear;
                                                 latency_ms := None |})]
  /\ calls w' = calls w ++ [call_b64decode a; call_speech_to_text b]
  /\ (forall u p, call_get_llm_response u p ∈ calls w' ->
                  call_get_llm_response u p ∈ calls w)
  /\ stats_jsonl w' = stats_jsonl w
  /\ sessions w' = sessions w
  /\ (forall c, history_of c w' = history_of c w).
Proof.
  intros Haud Hd Ht Hb%no_speech_iff. cbv zeta.
  rewrite (run_no_speech _ _ _ _ _ a b t) by assumption.
  cbn [world emit_world log_call outbox calls stats_jsonl sessions].
  rewrite <- app_assoc.
  split; [reflexivity |]. split; [reflexivity |]. split.
  - intros u p. cbn [app]. rewrite elem_of_app, !elem_of_cons.
    intros [H | [H | [H | H]]]; [exact H | discriminate H | discriminate H |].
    apply elem_of_nil in H. destruct H.
  - split; [reflexivity |]. split; reflexivity.
Qed.

Lemma C5_blank_transcript_witness :
  let w' := world (handle_audio_data Scenario.prompt Scenario.sid1
                     Scenario.audio_event Scenario.env_silence
                     Scenario.world1) in
  outbox w' = [(Scenario.sid1,
                bot_response {| user_text := py "...";
                                bot_text := could_not_hear;
                                latency_ms := None |})]
  /\ stats_jsonl w' = []
  /\ sessions w' = sessions Scenario.world1.
Proof.
  assert (has_audio Scenario.audio_event (py "GkXfo59C")) as Ha
    by (split; [reflexivity | discriminate]).
  destruct (C5_blank_transcript Scenario.prompt Scenario.sid1
              Scenario.audio_event Scenario.env_silence Scenario.world1
              (py "GkXfo59C") Scenario.webm [] Ha eq_refl eq_refl eq_refl)
    as (Ho & _ & _ & Hs & Hm & _).
  split; [exact Ho |]. split; [exact Hs | exact Hm].
Defined.




(** C7, as amended.  In a turn that enters the transcription stage, the
    [asr] latency is recorded when the gateway call returns, whatever the
    transcript.  When the call raises it is not: the [asr_transcription]
    entry keeps its initial 0 and no metrics record is written. *)
Theorem C7_asr_latency_recorded_on_return
    (bp : Session -> str) (sid : str) (data : Payload) (env : Env)
    (w : World) (a : str) (b : bytes) :
  has_audio data a ->
  b64decode env a = Ok b ->
  let f := handle_audio_data bp sid data env w in
  match speech_to_text env b with
  | Ok _ =>
      li_asr_transcription (latency_info f)
      = elapsed_ms (time_asr_end env) (time_asr_start env)
  | Err _ =>
      li_asr_transcription (latency_info f) = 0%Q
      /\ stats_jsonl (world f) = stats_jsonl w
  end.
Proof.
  intros Haud Hd. cbv zeta.
  destruct (speech_to_text env b) as [t | e] eqn:Ht.
  - destruct (no_speech t) eqn:Hn.
    + rewrite (run_no_speech _ _ _ _ _ a b t) by assumption. reflexivity.
    + destruct (stats_append env) as [[] | e] eqn:Hs.
      * rewrite (run_completed _ _ _ _ _ a b t) by assumption. reflexivity.
      * rewrite (run_stats_error _ _ _ _ _ a b t e) by assumption. reflexivity.
  - rewrite (run_transcription_error _ _ _ _ _ a b e) by assumption.
    split; reflexivity.
Qed.

Lemma C7_asr_latency_recorded_on_return_witness :
  li_asr_transcription
    (latency_info (handle_audio_data Scenario.prompt Scenario.sid1
                     Scenario.audio_event Scenario.env_silence
                     Scenario.world0))
  = elapsed_ms (Scenario.after 312500) (Scenario.after 15625).
Proof.
  assert (has_audio Scenario.audio_event (py "GkXfo59C")) as Ha
    by (split; [reflexivity | discriminate]).
  exact (C7_asr_latency_recorded_on_return Scenario.prompt Scenario.sid1
           Scenario.audio_event Scenario.env_silence Scenario.world0
           (py "GkXfo59C") Scenario.webm Ha eq_refl).
Defined.

(** C7 as stated fails.  The gateway call below raises 296.875 ms after it
    was started; the [asr_transcription] entry is still 0 when the handler is
    left, and [stats.jsonl] has no record of the turn. *)
Lemma C7_counterexample :
  let f := handle_audio_data Scenario.prompt Scenario.sid1
             Scenario.audio_event Scenario.env_stt_down Scenario.world0 in
  fails_at Scenario.audio_event Scenario.env_stt_down transcription_error
           (py "503 Service Unavailable")
  /\ (elapsed_ms (time_asr_end Scenario.env_stt_down)
                 (time_asr_start Scenario.env_stt_down) == 296875 # 1000)%Q
  /\ li_asr_transcription (latency_info f) = 0%Q
  /\ stats_jsonl (world f) = [].
Proof.
  cbv zeta. split.
  { exists (py "GkXfo59C"), Scenario.webm.
    repeat split; try reflexivity. discriminate. }
  split; [reflexivity |]. split; vm_compute; reflexivity.
Qed.

(** C8 fails on the no-speech path.  For an audio event whose transcript is
    empty, the [bot_response] emitted has [user_text] and [bot_text] but no
    [latency_ms]; the response of a completed turn has it. *)
Theorem C8_no_speech_response_lacks_latency_ms :
  outbox (world (handle_audio_data Scenario.prompt Scenario.sid1
                   Scenario.audio_event Scenario.env_silence Scenario.world0))
  = [(Scenario.sid1, bot_response {| user_text := py "...";
                                     bot_text := could_not_hear;
                                     latency_ms := None |})]
  /\ outbox (world (handle_audio_data Scenario.prompt Scenario.sid1
                      Scenario.audio_event Scenario.env_ok Scenario.world0))
     = [(Scenario.sid1, bot_response {| user_text := Scenario.ni_hao;
                                        bot_text := Scenario.hao_de;
                                        latency_ms := Some {| backend := 1093 |} |})].
Proof. split; vm_compute; reflexivity. Qed.

(** C9.  The history of a Session only grows, in the order of the turns:
    a completed turn appends exactly the pair (transcript, reply) and
    leaves the other Sessions alone, so two completed turns in a row on a
    Session append their two pairs in that order, and on a Session whose
    history was empty the history then has length 2. *)
Theorem C9_history_accumulates
    (bp : Session -> str) (sid : str) (data1 data2 : Payload)
    (env1 env2 : Env) (w : World) (t1 t2 : str) :
  completes data1 env1 t1 ->
  completes data2 env2 t2 ->
  let w1 := world (handle_audio_data bp sid data1 env1 w) in
  let w2 := world (handle_audio_data bp sid data2 env2 w1) in
  let r1 := reply_of bp env1 sid t1 w in
  let r2 := reply_of bp env2 sid t2 w1 in
  history_of sid w1 = history_of sid w ++ [(t1, r1)]
  /\ history_of sid w2 = history_of sid w ++ [(t1, r1); (t2, r2)]
  /\ (forall c, c <> sid -> history_of c w2 = history_of c w)
  /\ (history_of sid w = [] -> length (history_of sid w2) = 2%nat).
Proof.
  intros (a1 & b1 & Haud1 & Hd1 & Ht1 & Hn1 & Hs1)
         (a2 & b2 & Haud2 & Hd2 & Ht2 & Hn2 & Hs2).
  cbv zeta.
  rewrite (run_completed bp sid data1 env1 w a1 b1 t1) by assumption.
  cbn [world].
  rewrite (run_completed bp sid data2 env2 _ a2 b2 t2) by assumption.
  cbn [world].
  set (w1 := emit_world sid _ (append_stats _ (generated bp sid env1 w a1 b1 t1))).
  assert (forall c, history_of c w1 = history_of c (generated bp sid env1 w a1 b1 t1))
    as Hw1 by reflexivity.
  assert (forall c v, history_of c
            (emit_world sid v (append_stats (stats_line env2)
               (generated bp sid env2 w1 a2 b2 t2)))
          = history_of c (generated bp sid env2 w1 a2 b2 t2))
    as Hw2 by reflexivity.
  assert (history_of sid w1 = history_of sid w ++ [(t1, reply_of bp env1 sid t1 w)])
    as H1 by (rewrite Hw1; apply history_of_generated).
  assert (history_of sid
            (emit_world sid
               (bot_response (full_response env2 t2 (reply_of bp env2 sid t2 w1)))
               (append_stats (stats_line env2) (generated bp sid env2 w1 a2 b2 t2)))
          = history_of sid w ++ [(t1, reply_of bp env1 sid t1 w);
                                 (t2, reply_of bp env2 sid t2 w1)]) as H2.
  { rewrite Hw2, history_of_generated, H1, <- app_assoc. reflexivity. }
  split; [exact H1 |]. split; [exact H2 |]. split.
  - intros c Hc. rewrite Hw2, history_of_generated_other by exact Hc.
    rewrite Hw1. apply history_of_generated_other, Hc.
  - intros Hempty. rewrite H2, Hempty. reflexivity.
Qed.

Lemma C9_history_accumulates_witness :
  let w1 := world (handle_audio_data Scenario.prompt Scenario.sid1
                     Scenario.audio_event Scenario.env_ok Scenario.world0) in
  let w2 := world (handle_audio_data Scenario.prompt Scenario.sid1
                     Scenario.audio_event Scenario.env_ok2 w1) in
  history_of Scenario.sid1 w2
  = [(Scenario.ni_hao, Scenario.hao_de); (Scenario.ming_tian, Scenario.hao_de)]
  /\ length (history_of Scenario.sid1 w2) = 2%nat.
Proof.
  assert (completes Scenario.audio_event Scenario.env_ok Scenario.ni_hao) as Hc1.
  { exists (py "GkXfo59C"), Scenario.webm.
    repeat split; try reflexivity. discriminate. }
  assert (completes Scenario.audio_event Scenario.env_ok2 Scenario.ming_tian)
    as Hc2.
  { exists (py "GkXfo59C"), Scenario.webm.
    repeat split; try reflexivity. discriminate. }
  destruct (C9_history_accumulates Scenario.prompt Scenario.sid1
              Scenario.audio_event Scenario.audio_event
              Scenario.env_ok Scenario.env_ok2 Scenario.world0
              Scenario.ni_hao Scenario.ming_tian Hc1 Hc2)
    as (_ & H2 & _ & Hlen).
  split; [exact H2 | exact (Hlen eq_refl)].
Defined.

(** C10.  The Session Store is consulted only once the transcript is known
    not to be blank: an [audio_data] event whose [audio] field is absent or
    empty, or whose transcript is empty or whitespace only, is handled
    without a call to [get_or_create_session], and the Store is left
    exactly as it was. *)
Theorem C10_store_untouched_without_speech
    (bp : Session -> str) (sid : str) (data : Payload) (env : Env)
    (w : World) :
  no_audio data
  \/ (exists a b t, has_audio data a /\ b64decode env a = Ok b /\
                    speech_to_text env b = Ok t /\ forallb isspace t = true) ->
  let w' := world (handle_audio_data bp sid data env w) in
  sessions w' = sessions w
  /\ exists cs, calls w' = calls w ++ cs
                /\ forall c, call_get_or_create_session c ∉ cs.
Proof.
  cbv zeta. intros [Hno | (a & b & t & Haud & Hd & Ht & Hb%no_speech_iff)].
  - rewrite run_no_audio by exact Hno. split; [reflexivity |].
    exists []. split; [symmetry; apply app_nil_r |].
    intros c H. apply elem_of_nil in H. exact H.
  - rewrite (run_no_speech _ _ _ _ _ a b t) by assumption.
    split; [reflexivity |].
    exists [call_b64decode a; call_speech_to_text b]. split.
    + cbn [world emit_world log_call calls]. rewrite <- app_assoc. reflexivity.
    + intros c. rewrite !not_elem_of_cons. repeat split; try discriminate.
      apply not_elem_of_nil.
Qed.

Lemma C10_store_untouched_without_speech_witness :
  sessions (world (handle_audio_data Scenario.prompt Scenario.sid1
                     Scenario.empty_audio_event Scenario.env_ok
                     Scenario.world0))
  = sessions Scenario.world0
  /\ sessions (world (handle_audio_data Scenario.prompt Scenario.sid1
                        Scenario.audio_event Scenario.env_silence
                        Scenario.world0))
     = sessions Scenario.world0.
Proof.
  split.
  - apply (C10_store_untouched_without_speech Scenario.prompt Scenario.sid1
             Scenario.empty_audio_event Scenario.env_ok Scenario.world0).
    left. right. reflexivity.
  - apply (C10_store_untouched_without_speech Scenario.prompt Scenario.sid1
             Scenario.audio_event Scenario.env_silence Scenario.world0).
    right. exists (py "GkXfo59C"), Scenario.webm, [].
    repeat split; try reflexivity. discriminate.
Defined.

(* ===================================================================== *)
(** ** The effect of one turn *)
(* ===================================================================== *)

Lemma session_for_lookup (sid : str) (w1 w2 : World) :
  sessions w1 !! sid = sessions w2 !! sid ->
  session_for sid w1 = session_for sid w2.
Proof.
  unfold session_for, get_or_create_session. intros ->.
  destruct (sessions w2 !! sid); reflexivity.
Qed.

Lemma reply_of_lookup bp env sid t (w1 w2 : World) :
  sessions w1 !! sid = sessions w2 !! sid ->
  reply_of bp env sid t w1 = reply_of bp env sid t w2.
Proof.
  intros H. unfold reply_of. rewrite (session_for_lookup sid w1 w2 H).
  reflexivity.
Qed.

Lemma turn_events_lookup bp sid data env (w1 w2 : World) :
  sessions w1 !! sid = sessions w2 !! sid ->
  turn_events bp sid data env w1 = turn_events bp sid data env w2.
Proof.
  intros H. unfold turn_events.
  destruct (payload_get data (py "audio")) as [[a |] | e]; try reflexivity.
  destruct (falsy a); [reflexivity |].
  destruct (b64decode env a) as [b | e]; [| reflexivity].
  destruct (speech_to_text env b) as [t | e]; [| reflexivity].
  destruct (no_speech t); [reflexivity |].
  destruct (stats_append env); [| reflexivity].
  rewrite (reply_of_lookup bp env sid t w1 w2 H). reflexivity.
Qed.

(** The state a turn leaves, field by field. *)
Lemma handle_audio_data_effect bp sid data env w :
  let w' := world (handle_audio_data bp sid data env w) in
  sessions w'
  = match transcript_of data env with
    | Some t =>
        <[sid := add_to_history t (reply_of bp env sid t w) (session_for sid w)]>
          (sessions w)
    | None => sessions w
    end
  /\ outbox w' = outbox w ++ map (pair sid) (turn_events bp sid data env w)
  /\ stats_jsonl w' = stats_jsonl w ++ turn_stats data env.
Proof.
  cbv zeta. unfold transcript_of, turn_events, turn_stats, transcript_of.
  destruct (payload_get data (py "audio")) as [[[| c a'] |] | e0] eqn:Ha.
  4:{ rewrite (run_payload_error _ _ _ _ _ e0) by exact Ha. cbn.
      rewrite app_nil_r. auto. }
  - rewrite run_no_audio by (right; exact Ha). cbn.
    rewrite !app_nil_r. auto.
  - set (a := c :: a') in *.
    assert (has_audio data a) as Haud by (split; [exact Ha | discriminate]).
    change (falsy a) with false. cbv iota.
    destruct (b64decode env a) as [b | e] eqn:Hd.
    2:{ rewrite (run_decode_error _ _ _ _ _ a e) by assumption. cbn.
        rewrite app_nil_r. auto. }
    destruct (speech_to_text env b) as [t | e] eqn:Ht.
    2:{ rewrite (run_transcription_error _ _ _ _ _ a b e) by assumption. cbn.
        rewrite app_nil_r. auto. }
    destruct (no_speech t) eqn:Hn.
    { rewrite (run_no_speech _ _ _ _ _ a b t) by assumption. cbn.
      rewrite app_nil_r. auto. }
    destruct (stats_append env) as [[] | e] eqn:Hs.
    + rewrite (run_completed _ _ _ _ _ a b t) by assumption. cbn. auto.
    + rewrite (run_stats_error _ _ _ _ _ a b t e) by assumption. cbn.
      rewrite app_nil_r. auto.
  - rewrite run_no_audio by (left; exact Ha). cbn.
    rewrite !app_nil_r. auto.
Qed.

Lemma transcript_of_Some data env t :
  transcript_of data env = Some t <->
  exists a b, has_audio data a /\ b64decode env a = Ok b /\
              speech_to_text env b = Ok t /\ no_speech t = false.
Proof.
  unfold transcript_of, has_audio. split.
  - destruct (payload_get data (py "audio")) as [[a |] | e0];
      [| discriminate | discriminate].
    destruct a as [| c a']; [discriminate |]. cbn [falsy].
    destruct (b64decode env (c :: a')) as [b | e] eqn:Hd; [| discriminate].
    destruct (speech_to_text env b) as [t' | e] eqn:Ht; [| discriminate].
    destruct (no_speech t') eqn:Hn; [discriminate |].
    intros [= <-]. exists (c :: a'), b. repeat split; try discriminate; auto.
  - intros (a & b & (Ha & Hne) & Hd & Ht & Hn). rewrite Ha.
    rewrite (falsy_false a Hne), Hd, Ht, Hn. reflexivity.
Qed.


Lemma turn_events_length bp sid data env w :
  length (turn_events bp sid data env w)
  = if answered (on_audio_data sid data env) then 1%nat else 0%nat.
Proof.
  unfold turn_events, answered.
  destruct (payload_get data (py "audio")) as [[[| c a'] |] | e0];
    try reflexivity.
  cbn [falsy].
  destruct (b64decode env (c :: a')) as [b | e]; [| reflexivity].
  destruct (speech_to_text env b) as [t | e]; [| reflexivity].
  destruct (no_speech t); [reflexivity |].
  destruct (stats_append env); reflexivity.
Qed.

Lemma calls_of_turn bp sid data env w :
  exists a b t cs,
    calls (world (handle_audio_data bp sid data env w)) = calls w ++ cs
    /\ cs `prefix_of` pipeline_calls bp sid env w a b t
    /\ (forall u p, call_get_llm_response u p ∈ cs ->
                    transcript_of data env = Some u).
Proof.
  destruct (payload_get data (py "audio")) as [[[| c a'] |] | e0] eqn:Ha.
  4:{ exists [], [], [], [].
      rewrite (run_payload_error _ _ _ _ _ e0) by exact Ha.
      split; [symmetry; apply app_nil_r |]. split; [apply prefix_nil |].
      intros u p H. apply elem_of_nil in H. destruct H. }
  - exists [], [], [], []. rewrite run_no_audio by (right; exact Ha).
    split; [symmetry; apply app_nil_r |]. split; [apply prefix_nil |].
    intros u p H. apply elem_of_nil in H. destruct H.
  - set (a := c :: a') in *.
    assert (has_audio data a) as Haud by (split; [exact Ha | discriminate]).
    destruct (b64decode env a) as [b | e] eqn:Hd.
    2:{ exists a, [], [], [call_b64decode a].
        rewrite (run_decode_error _ _ _ _ _ a e) by assumption.
        split; [reflexivity |]. split.
        - exists (tail (pipeline_calls bp sid env w a [] [])). reflexivity.
        - intros u p H. apply list_elem_of_singleton in H. discriminate H. }
    destruct (speech_to_text env b) as [t | e] eqn:Ht.
    2:{ exists a, b, [], [call_b64decode a; call_speech_to_text b].
        rewrite (run_transcription_error _ _ _ _ _ a b e) by assumption.
        split; [cbn; rewrite <- app_assoc; reflexivity |]. split.
        - exists (drop 2 (pipeline_calls bp sid env w a b [])). reflexivity.
        - intros u p H. rewrite !elem_of_cons in H.
          destruct H as [H | [H | H]]; try discriminate H.
          apply elem_of_nil in H. destruct H. }
    destruct (no_speech t) eqn:Hn.
    { exists a, b, t, [call_b64decode a; call_speech_to_text b].
      rewrite (run_no_speech _ _ _ _ _ a b t) by assumption.
      split; [cbn; rewrite <- app_assoc; reflexivity |]. split.
      - exists (drop 2 (pipeline_calls bp sid env w a b t)). reflexivity.
      - intros u p H. rewrite !elem_of_cons in H.
        destruct H as [H | [H | H]]; try discriminate H.
        apply elem_of_nil in H. destruct H. }
    assert (transcript_of data env = Some t) as Htr
      by (apply transcript_of_Some; exists a, b; auto).
    assert (forall u p, call_get_llm_response u p ∈ pipeline_calls bp sid env w a b t ->
                        transcript_of data env = Some u) as Hllm.
    { intros u p H. unfold pipeline_calls in H. rewrite !elem_of_cons in H.
      destruct H as [H | [H | [H | [H | [H | [H | [H | H]]]]]]];
        try discriminate H.
      - injection H as -> _. exact Htr.
      - apply elem_of_nil in H. destruct H. }
    exists a, b, t, (pipeline_calls bp sid env w a b t).
    split; [| split; [reflexivity | exact Hllm]].
    destruct (stats_append env) as [[] | e] eqn:Hs.
    + rewrite (run_completed _ _ _ _ _ a b t) by assumption. reflexivity.
    + rewrite (run_stats_error _ _ _ _ _ a b t e) by assumption. reflexivity.
  - exists [], [], [], []. rewrite run_no_audio by (left; exact Ha).
    split; [symmetry; apply app_nil_r |]. split; [apply prefix_nil |].
    intros u p H. apply elem_of_nil in H. destruct H.
Qed.

Lemma py_int_nonneg (x : Q) : (0 <= x)%Q -> py_int x = Qfloor x.
Proof.
  destruct x as [n d]. unfold Qle, py_int, Qfloor. cbn. intros H.
  apply Z.quot_div_nonneg; lia.
Qed.

Lemma round2_error (x : Q) : within_half_cent (round2 x) x.
Proof.
  unfold within_half_cent, round2.
  pose proof (round_half_even_lower (x * 100)) as Hlo.
  pose proof (round_half_even_upper (x * 100)) as Hhi.
  set (r := round_half_even (x * 100)) in *.
  assert (r # 100 == inject_Z r * (1 # 100))%Q as ->
    by (unfold Qeq; cbn; lia).
  split; lra.
Qed.

Lemma history_after_turn bp sid data env w :
  history_of sid (world (handle_audio_data bp sid data env w))
  = match transcript_of data env with
    | Some t => history_of sid w ++ [(t, reply_of bp env sid t w)]
    | None => history_of sid w
    end.
Proof.
  unfold history_of at 1.
  destruct (handle_audio_data_effect bp sid data env w) as (-> & _).
  destruct (transcript_of data env) as [t |]; [| reflexivity].
  rewrite lookup_insert_eq. cbn [history add_to_history].
  rewrite history_session_for. reflexivity.
Qed.

(* ===================================================================== *)
(** ** Further properties of a turn *)
(* ===================================================================== *)

(** X1.  A turn works on the Session of its own connection only: whatever
    the event and whatever the services answer, the Session registered for
    any other connection id is what it was. *)
Theorem X1_turn_leaves_other_sessions
    (bp : Session -> str) (sid : str) (data : Payload) (env : Env)
    (w : World) (c : str) :
  c <> sid ->
  sessions (world (handle_audio_data bp sid data env w)) !! c
  = sessions w !! c.
Proof.
  intros Hc. destruct (handle_audio_data_effect bp sid data env w) as (-> & _).
  destruct (transcript_of data env); [| reflexivity].
  apply lookup_insert_ne. congruence.
Qed.

Lemma X1_turn_leaves_other_sessions_witness :
  sessions (world (handle_audio_data Scenario.prompt Run.sid2
                     Scenario.audio_event Scenario.env_ok Scenario.world1))
    !! Scenario.sid1
  = sessions Scenario.world1 !! Scenario.sid1.
Proof.
  apply (X1_turn_leaves_other_sessions Scenario.prompt Run.sid2
           Scenario.audio_event Scenario.env_ok Scenario.world1 Scenario.sid1).
  discriminate.
Defined.


(** X3.  An [audio_data] event whose payload is not a dict -- [None], a
    string, a list, a number -- is answered with exactly one [error] event,
    whose message is that of the [AttributeError] raised by [data.get]; no
    collaborator is called, nothing is written to [stats.jsonl] and the
    Session Store is as it was. *)
Theorem X3_non_dict_payload_is_an_error
    (bp : Session -> str) (sid : str) (data : Payload) (env : Env)
    (w : World) :
  (forall d, data <> PyDict d) ->
  let w' := world (handle_audio_data bp sid data env w) in
  outbox w'
  = outbox w
    ++ [(sid, error (py "'" ++ type_name data
                     ++ py "' object has no attribute 'get'"))]
  /\ calls w' = calls w
  /\ stats_jsonl w' = stats_jsonl w
  /\ sessions w' = sessions w.
Proof.
  intros Hd. cbv zeta.
  assert (payload_get data (py "audio")
          = Err (py "'" ++ type_name data
                 ++ py "' object has no attribute 'get'")) as Hget.
  { destruct data; try reflexivity. destruct (Hd d). reflexivity. }
  rewrite (run_payload_error _ _ _ _ _ _ Hget). repeat split.
Qed.

Lemma X3_non_dict_payload_is_an_error_witness :
  let w' := world (handle_audio_data Scenario.prompt Scenario.sid1
                     (PyStr (py "GkXfo59C")) Scenario.env_ok
                     Scenario.world1) in
  outbox w'
  = [(Scenario.sid1, error (py "'str' object has no attribute 'get'"))]
  /\ calls w' = []
  /\ stats_jsonl w' = []
  /\ sessions w' = sessions Scenario.world1.
Proof.
  apply (X3_non_dict_payload_is_an_error Scenario.prompt Scenario.sid1
           (PyStr (py "GkXfo59C")) Scenario.env_ok Scenario.world1).
  intros d. discriminate.
Defined.

(** X4.  The collaborators are called one after the other in a fixed
    order -- decode, transcribe, get the Session, build the prompt,
    generate, add to the history, write the metrics line -- each at most
    once, the turn stopping somewhere along that line; the generator is
    called only with a transcript that is not blank. *)
Theorem X4_collaborators_called_in_order
    (bp : Session -> str) (sid : str) (data : Payload) (env : Env)
    (w : World) :
  exists a b t cs,
    calls (world (handle_audio_data bp sid data env w)) = calls w ++ cs
    /\ cs `prefix_of` pipeline_calls bp sid env w a b t
    /\ (forall u p, call_get_llm_response u p ∈ cs ->
                    transcript_of data env = Some u /\ no_speech u = false).
Proof.
  destruct (calls_of_turn bp sid data env w) as (a & b & t & cs & H1 & H2 & H3).
  exists a, b, t, cs. split; [exact H1 |]. split; [exact H2 |].
  intros u p H. pose proof (H3 u p H) as Hu. split; [exact Hu |].
  apply transcript_of_Some in Hu. destruct Hu as (? & ? & ? & ? & ? & Hn).
  exact Hn.
Qed.

(** X5.  The history of the connection grows by the pair (transcript,
    reply) exactly when the turn got a transcript that is not blank -- also
    when the metrics line then cannot be written -- and is unchanged
    otherwise. *)
Theorem X5_history_after_turn
    (bp : Session -> str) (sid : str) (data : Payload) (env : Env)
    (w : World) :
  history_of sid (world (handle_audio_data bp sid data env w))
  = match transcript_of data env with
    | Some t => history_of sid w ++ [(t, reply_of bp env sid t w)]
    | None => history_of sid w
    end.
Proof. apply history_after_turn. Qed.

(** X6.  The test of line 130 holds exactly for the transcripts all of
    whose code points are whitespace, the empty transcript among them. *)
Theorem X6_no_speech_iff_whitespace (t : str) :
  no_speech t = true <-> Forall (fun c => isspace c = true) t.
Proof.
  rewrite no_speech_iff, forallb_forall, List.Forall_forall. reflexivity.
Qed.

(** X7.  When the clock has not gone back between the start and the end of
    a completed turn, the [backend] figure sent to the client is the whole
    number of milliseconds the turn took: it is not negative and the time
    taken lies between [backend] and [backend + 1]. *)
Theorem X7_backend_is_whole_milliseconds
    (bp : Session -> str) (sid : str) (data : Payload) (env : Env)
    (w : World) (t : str) :
  completes data env t ->
  (time_start env <= time_end env)%Q ->
  exists p ms,
    outbox (world (handle_audio_data bp sid data env w))
    = outbox w ++ [(sid, bot_response p)]
    /\ latency_ms p = Some {| backend := ms |}
    /\ 0 <= ms
    /\ (inject_Z ms <= elapsed_ms (time_end env) (time_start env))%Q
    /\ (elapsed_ms (time_end env) (time_start env) < inject_Z (ms + 1))%Q.
Proof.
  intros (a & b & Haud & Hd & Ht & Hn & Hs) Hclock.
  rewrite (run_completed _ _ _ _ _ a b t) by assumption.
  eexists _, _. split; [reflexivity |]. split; [reflexivity |].
  pose proof (elapsed_ms_nonneg _ _ Hclock) as Hpos.
  rewrite (py_int_nonneg _ Hpos). split; [| split].
  - apply Qfloor_resp_le in Hpos. exact Hpos.
  - apply Qfloor_le.
  - apply Qlt_floor.
Qed.

Lemma X7_backend_is_whole_milliseconds_witness :
  exists p ms,
    outbox (world (handle_audio_data Scenario.prompt Scenario.sid1
                     Scenario.audio_event Scenario.env_rounding
                     Scenario.world0))
    = outbox Scenario.world0 ++ [(Scenario.sid1, bot_response p)]
    /\ latency_ms p = Some {| backend := ms |}
    /\ 0 <= ms
    /\ (inject_Z ms <= elapsed_ms (time_end Scenario.env_rounding)
                                  (time_start Scenario.env_rounding))%Q
    /\ (elapsed_ms (time_end Scenario.env_rounding)
                   (time_start Scenario.env_rounding) < inject_Z (ms + 1))%Q.
Proof.
  apply (X7_backend_is_whole_milliseconds Scenario.prompt Scenario.sid1
           Scenario.audio_event Scenario.env_rounding Scenario.world0
           Scenario.ni_hao).
  - exists (py "GkXfo59C"), Scenario.webm.
    repeat split; try reflexivity. discriminate.
  - unfold Qle. simpl. lia.
Defined.

(** X8.  Each of [total], [asr] and [llm] in the line of a completed turn
    is within 0.005 ms of the duration measured, whatever the clock
    readings, and [conversion], [vad] and [trim] are 0. *)
Theorem X8_metrics_line_precision
    (bp : Session -> str) (sid : str) (data : Payload) (env : Env)
    (w : World) (t : str) :
  completes data env t ->
  exists r,
    stats_jsonl (world (handle_audio_data bp sid data env w))
    = stats_jsonl w ++ [r]
    /\ within_half_cent (total r) (elapsed_ms (time_end env) (time_start env))
    /\ within_half_cent (asr r)
         (elapsed_ms (time_asr_end env) (time_asr_start env))
    /\ within_half_cent (llm r)
         (elapsed_ms (time_llm_end env) (time_llm_start env))
    /\ reserved_zero r.
Proof.
  intros (a & b & Haud & Hd & Ht & Hn & Hs).
  rewrite (run_completed _ _ _ _ _ a b t) by assumption.
  exists (stats_line env). split; [reflexivity |].
  cbn [stats_line total asr llm].
  split; [apply round2_error |]. split; [apply round2_error |].
  split; [apply round2_error |]. repeat split.
Qed.

Lemma X8_metrics_line_precision_witness :
  exists r,
    stats_jsonl (world (handle_audio_data Scenario.prompt Scenario.sid1
                          Scenario.audio_event Scenario.env_rounding
                          Scenario.world0))
    = stats_jsonl Scenario.world0 ++ [r]
    /\ within_half_cent (total r)
         (elapsed_ms (time_end Scenario.env_rounding)
                     (time_start Scenario.env_rounding))
    /\ within_half_cent (asr r)
         (elapsed_ms (time_asr_end Scenario.env_rounding)
                     (time_asr_start Scenario.env_rounding))
    /\ within_half_cent (llm r)
         (elapsed_ms (time_llm_end Scenario.env_rounding)
                     (time_llm_start Scenario.env_rounding))
    /\ reserved_zero r.
Proof.
  apply (X8_metrics_line_precision Scenario.prompt Scenario.sid1
           Scenario.audio_event Scenario.env_rounding Scenario.world0
           Scenario.ni_hao).
  exists (py "GkXfo59C"), Scenario.webm.
  repeat split; try reflexivity. discriminate.
Defined.

(** X9.  The dialogue context accumulates: when a turn got the transcript
    [t1] and the next turn of the same connection gets [t2], the generator
    is called in that next turn with [t2] and with the prompt built from
    the Session that already holds the pair of the first turn. *)
Theorem X9_next_prompt_sees_previous_turn
    (bp : Session -> str) (sid : str) (data1 data2 : Payload)
    (env1 env2 : Env) (w : World) (t1 t2 : str) :
  transcript_of data1 env1 = Some t1 ->
  transcript_of data2 env2 = Some t2 ->
  let w1 := world (handle_audio_data bp sid data1 env1 w) in
  let w2 := world (handle_audio_data bp sid data2 env2 w1) in
  call_get_llm_response t2
    (bp (add_to_history t1 (reply_of bp env1 sid t1 w) (session_for sid w)))
  ∈ calls w2.
Proof.
  intros H1 H2. cbv zeta.
  set (w1 := world (handle_audio_data bp sid data1 env1 w)).
  assert (session_for sid w1
          = add_to_history t1 (reply_of bp env1 sid t1 w) (session_for sid w))
    as Hs.
  { unfold session_for at 1, get_or_create_session. subst w1.
    destruct (handle_audio_data_effect bp sid data1 env1 w) as (-> & _).
    rewrite H1, lookup_insert_eq. reflexivity. }
  apply transcript_of_Some in H2.
  destruct H2 as (a & b & Haud & Hd & Ht & Hn).
  destruct (stats_append env2) as [[] | e] eqn:Hst.
  - rewrite (run_completed _ _ _ _ _ a b t2) by assumption.
    cbn [world emit_world append_stats generated calls]. rewrite Hs.
    rewrite elem_of_app. right. rewrite !elem_of_cons. tauto.
  - rewrite (run_stats_error _ _ _ _ _ a b t2 e) by assumption.
    cbn [world emit_world generated calls]. rewrite Hs.
    rewrite elem_of_app. right. rewrite !elem_of_cons. tauto.
Qed.

Lemma X9_next_prompt_sees_previous_turn_witness :
  let w1 := world (handle_audio_data Scenario.prompt Scenario.sid1
                     Scenario.audio_event Scenario.env_ok Scenario.world0) in
  let w2 := world (handle_audio_data Scenario.prompt Scenario.sid1
                     Scenario.audio_event Scenario.env_ok2 w1) in
  call_get_llm_response Scenario.ming_tian
    (Scenario.prompt
       (add_to_history Scenario.ni_hao
          (reply_of Scenario.prompt Scenario.env_ok Scenario.sid1
                    Scenario.ni_hao Scenario.world0)
          (session_for Scenario.sid1 Scenario.world0)))
  ∈ calls w2.
Proof.
  exact (X9_next_prompt_sees_previous_turn Scenario.prompt Scenario.sid1
           Scenario.audio_event Scenario.audio_event
           Scenario.env_ok Scenario.env_ok2 Scenario.world0
           Scenario.ni_hao Scenario.ming_tian eq_refl eq_refl).
Defined.

(* ===================================================================== *)
(** ** Sequences of events *)
(* ===================================================================== *)

Lemma delivered_to_app (c sid : str) (w : World) (evs : list Event) (out : list (str * Event)) :
  (filter (fun p : str * Event => p.1 = c) (out ++ map (pair sid) evs)).*2
  = (filter (fun p : str * Event => p.1 = c) out).*2
    ++ (if decide (sid = c) then evs else []).
Proof.
  rewrite filter_app, fmap_app. f_equal.
  induction evs as [| ev evs IH]; cbn [map].
  - destruct (decide (sid = c)); reflexivity.
  - destruct (decide (sid = c)) as [Heq | Hne].
    + rewrite filter_cons_True by exact Heq. cbn. f_equal. exact IH.
    + rewrite filter_cons_False by exact Hne. exact IH.
Qed.

(** The events one inbound event makes the server send to its sender. *)
Lemma dispatch_outbox bp ev w :
  exists evs,
    outbox (dispatch bp ev w) = outbox w ++ map (pair (sender ev)) evs
    /\ length evs = (if answered ev then 1%nat else 0%nat)
    /\ (forall w2, sessions w !! sender ev = sessions w2 !! sender ev ->
                   outbox (dispatch bp ev w2)
                   = outbox w2 ++ map (pair (sender ev)) evs).
Proof.
  destruct ev as [sid | sid | sid data env]; cbn [dispatch sender].
  - exists [status (py "Connected to server")]. repeat split.
  - exists []. cbn. unfold handle_disconnect. rewrite app_nil_r.
    repeat split. intros w2 _. symmetry. apply app_nil_r.
  - exists (turn_events bp sid data env w).
    destruct (handle_audio_data_effect bp sid data env w) as (_ & Ho & _).
    split; [exact Ho |]. split; [apply turn_events_length |].
    intros w2 H.
    destruct (handle_audio_data_effect bp sid data env w2) as (_ & Ho2 & _).
    rewrite Ho2, (turn_events_lookup bp sid data env w w2 H). reflexivity.
Qed.

Lemma dispatch_sessions_other bp ev w c :
  sender ev <> c -> sessions (dispatch bp ev w) !! c = sessions w !! c.
Proof.
  destruct ev as [sid | sid | sid data env]; cbn [dispatch sender]; intros Hc;
    try reflexivity.
  destruct (handle_audio_data_effect bp sid data env w) as (-> & _).
  destruct (transcript_of data env); [| reflexivity].
  apply lookup_insert_ne. exact Hc.
Qed.

Lemma dispatch_sessions_same bp ev w1 w2 :
  sessions w1 !! sender ev = sessions w2 !! sender ev ->
  sessions (dispatch bp ev w1) !! sender ev
  = sessions (dispatch bp ev w2) !! sender ev.
Proof.
  destruct ev as [sid | sid | sid data env]; cbn [dispatch sender]; intros H;
    try exact H.
  destruct (handle_audio_data_effect bp sid data env w1) as (-> & _).
  destruct (handle_audio_data_effect bp sid data env w2) as (-> & _).
  destruct (transcript_of data env) as [t |]; [| exact H].
  rewrite !lookup_insert_eq, (reply_of_lookup bp env sid t w1 w2 H),
    (session_for_lookup sid w1 w2 H). reflexivity.
Qed.

Lemma dispatch_stats bp ev w :
  exists rs,
    stats_jsonl (dispatch bp ev w) = stats_jsonl w ++ rs
    /\ (length rs <= if is_audio_data ev then 1 else 0)%nat
    /\ Forall reserved_zero rs
    /\ exists evs,
         outbox (dispatch bp ev w) = outbox w ++ map (pair (sender ev)) evs
         /\ length (List.filter has_latency evs) = length rs.
Proof.
  destruct ev as [sid | sid | sid data env]; cbn [dispatch sender is_audio_data].
  - exists []. rewrite app_nil_r. repeat split; auto.
    exists [status (py "Connected to server")]. split; reflexivity.
  - exists []. unfold handle_disconnect. rewrite app_nil_r. repeat split; auto.
    exists []. cbn. rewrite app_nil_r. split; reflexivity.
  - exists (turn_stats data env).
    destruct (handle_audio_data_effect bp sid data env w) as (_ & Ho & Hs).
    split; [exact Hs |].
    assert (transcript_of data env = None \/ exists t, transcript_of data env = Some t)
      as [Hn | [t Ht]] by (destruct (transcript_of data env); eauto).
    + unfold turn_stats. rewrite Hn. split; [cbn; lia |]. split; [constructor |].
      exists (turn_events bp sid data env w). split; [exact Ho |].
      revert Hn. unfold transcript_of, turn_events.
      destruct (payload_get data (py "audio")) as [[a |] | e0];
        try reflexivity.
      destruct (falsy a); [reflexivity |].
      destruct (b64decode env a) as [b | e]; [| reflexivity].
      destruct (speech_to_text env b) as [t | e]; [| reflexivity].
      destruct (no_speech t); [reflexivity | discriminate].
    + unfold turn_stats. rewrite Ht.
      pose proof Ht as Ht'. apply transcript_of_Some in Ht'.
      destruct Ht' as (a & b & [Ha Hne] & Hd & Hst & Hns).
      assert (turn_events bp sid data env w
              = match stats_append env with
                | Ok _ => [bot_response (full_response env t (reply_of bp env sid t w))]
                | Err e => [error e]
                end) as Hev.
      { unfold turn_events. rewrite Ha, (falsy_false a Hne), Hd, Hst, Hns.
        reflexivity. }
      destruct (stats_append env) as [[] | e].
      * split; [cbn; lia |]. split; [repeat constructor |].
        exists (turn_events bp sid data env w). split; [exact Ho |].
        rewrite Hev. reflexivity.
      * split; [cbn; lia |]. split; [constructor |].
        exists (turn_events bp sid data env w). split; [exact Ho |].
        rewrite Hev. reflexivity.
Qed.


(** X11.  The handlers only ever append to the events sent and to
    [stats.jsonl]: over any sequence of events what was sent and what was
    written before stays in place at the front, and at most one line is
    written for each [audio_data] event. *)
Theorem X11_logs_are_append_only
    (bp : Session -> str) (evs : list Inbound) (w : World) :
  outbox w `prefix_of` outbox (serve bp evs w)
  /\ stats_jsonl w `prefix_of` stats_jsonl (serve bp evs w)
  /\ (length (stats_jsonl (serve bp evs w))
      <= length (stats_jsonl w) + length (List.filter is_audio_data evs))%nat.
Proof.
  revert w. induction evs as [| ev evs IH]; intros w; cbn [serve List.filter].
  - repeat split; [reflexivity | reflexivity | cbn [length]; lia].
  - destruct (IH (dispatch bp ev w)) as (Ho & Hs & Hl).
    destruct (dispatch_outbox bp ev w) as (out & Hout & _).
    destruct (dispatch_stats bp ev w) as (rs & Hrs & Hlen & _).
    rewrite Hout in Ho. rewrite Hrs in Hs. rewrite Hrs, length_app in Hl.
    split; [| split].
    + etransitivity; [apply prefix_app_r; reflexivity | exact Ho].
    + etransitivity; [apply prefix_app_r; reflexivity | exact Hs].
    + destruct (is_audio_data ev); cbn [length] in *; lia.
Qed.

(** X12.  No event removes a Session, and Sessions are registered only for
    senders of [audio_data] events: over any sequence of events the ids
    with a Session are those of before, plus some of these senders. *)
Theorem X12_sessions_only_added_by_audio
    (bp : Session -> str) (evs : list Inbound) (w : World) :
  dom (sessions w) ⊆ dom (sessions (serve bp evs w))
  /\ dom (sessions (serve bp evs w))
     ⊆ dom (sessions w)
       ∪ list_to_set (sender <$> List.filter is_audio_data evs).
Proof.
  revert w. induction evs as [| ev evs IH]; intros w; cbn [serve List.filter].
  - split; [reflexivity | apply union_subseteq_l].
  - destruct (IH (dispatch bp ev w)) as (H1 & H2). clear IH.
    assert (dom (sessions w) ⊆ dom (sessions (dispatch bp ev w))
            /\ dom (sessions (dispatch bp ev w))
               ⊆ dom (sessions w)
                 ∪ (if is_audio_data ev then {[sender ev]} else ∅)) as (D1 & D2).
    { clear H1 H2.
      destruct ev as [sid | sid | sid data env];
        cbn [dispatch sender is_audio_data];
        try (split; [reflexivity | apply union_subseteq_l]).
      destruct (handle_audio_data_effect bp sid data env w) as (-> & _).
      destruct (transcript_of data env);
        [| split; [reflexivity | apply union_subseteq_l]].
      rewrite dom_insert_L. split.
      - apply union_subseteq_r.
      - rewrite (comm_L (∪)). reflexivity. }
    split; [etransitivity; eassumption |].
    etransitivity; [exact H2 |].
    destruct (is_audio_data ev); cbn [fmap list_fmap list_to_set].
    + rewrite (assoc_L (∪)). apply union_mono_r. exact D2.
    + apply union_mono_r. etransitivity; [exact D2 |].
      rewrite (right_id_L ∅ (∪)). reflexivity.
Qed.

(** X13.  Clients do not interfere: what a client is sent, and the Session
    of its connection, after any sequence of events are what they would be
    had only that client's events been handled. *)
Theorem X13_clients_do_not_interfere
    (bp : Session -> str) (c : str) (evs : list Inbound) (w : World) :
  let own := filter (fun ev => sender ev = c) evs in
  delivered_to c (serve bp evs w) = delivered_to c (serve bp own w)
  /\ sessions (serve bp evs w) !! c = sessions (serve bp own w) !! c.
Proof.
  cbv zeta.
  assert (forall evs w1 w2,
            delivered_to c w1 = delivered_to c w2 ->
            sessions w1 !! c = sessions w2 !! c ->
            delivered_to c (serve bp evs w1)
            = delivered_to c (serve bp (filter (fun ev => sender ev = c) evs) w2)
            /\ sessions (serve bp evs w1) !! c
               = sessions (serve bp (filter (fun ev => sender ev = c) evs) w2) !! c)
    as Hgen.
  { clear evs w. induction evs as [| ev evs IH]; intros w1 w2 Hd Hs.
    - split; assumption.
    - destruct (decide (sender ev = c)) as [Heq | Hne].
      + rewrite filter_cons_True by exact Heq. cbn [serve]. apply IH.
        * destruct (dispatch_outbox bp ev w1) as (out & Ho1 & _ & Ho2).
          unfold delivered_to. rewrite Ho1, (Ho2 w2) by (rewrite Heq; exact Hs).
          rewrite !(delivered_to_app c (sender ev) w1).
          unfold delivered_to in Hd. rewrite Hd. reflexivity.
        * rewrite <- Heq in *. apply dispatch_sessions_same, Hs.
      + rewrite filter_cons_False by exact Hne. cbn [serve]. apply IH.
        * destruct (dispatch_outbox bp ev w1) as (out & Ho1 & _).
          unfold delivered_to. rewrite Ho1.
          rewrite (delivered_to_app c (sender ev) w1).
          rewrite decide_False by exact Hne. rewrite app_nil_r. exact Hd.
        * rewrite dispatch_sessions_other by exact Hne. exact Hs. }
  apply Hgen; reflexivity.
Qed.

(** X14.  The history of a connection is only ever extended at its end:
    over any sequence of events the history of before is a prefix of the
    history of after. *)
Theorem X14_history_is_append_only
    (bp : Session -> str) (c : str) (evs : list Inbound) (w : World) :
  history_of c w `prefix_of` history_of c (serve bp evs w).
Proof.
  revert w. induction evs as [| ev evs IH]; intros w; cbn [serve].
  - reflexivity.
  - etransitivity; [| apply IH].
    destruct ev as [sid | sid | sid data env]; cbn [dispatch]; try reflexivity.
    destruct (decide (sid = c)) as [-> | Hne].
    + rewrite history_after_turn.
      destruct (transcript_of data env); [apply prefix_app_r |]; reflexivity.
    + unfold history_of.
      destruct (handle_audio_data_effect bp sid data env w) as (-> & _).
      destruct (transcript_of data env); [| reflexivity].
      rewrite lookup_insert_ne by exact Hne. reflexivity.
Qed.

(** X15.  Every line written has its reserved fields at zero: when
    [conversion], [vad] and [trim] are 0 in all the lines of [stats.jsonl],
    they still are after any sequence of events. *)
Theorem X15_reserved_fields_stay_zero
    (bp : Session -> str) (evs : list Inbound) (w : World) :
  Forall reserved_zero (stats_jsonl w) ->
  Forall reserved_zero (stats_jsonl (serve bp evs w)).
Proof.
  revert w. induction evs as [| ev evs IH]; intros w H; cbn [serve].
  - exact H.
  - apply IH. destruct (dispatch_stats bp ev w) as (rs & -> & _ & Hrs & _).
    apply Forall_app. split; assumption.
Qed.

Lemma X15_reserved_fields_stay_zero_witness :
  Forall reserved_zero
    (stats_jsonl (serve Scenario.prompt Run.two_clients Scenario.world0)).
Proof.
  apply (X15_reserved_fields_stay_zero Scenario.prompt Run.two_clients
           Scenario.world0).
  constructor.
Defined.


Example two_clients_sample :
  delivered_to Run.sid2 (serve Scenario.prompt Run.two_clients Scenario.world0)
  = [status (py "Connected to server");
     bot_response (full_response Scenario.env_ok2 Scenario.ming_tian
                                 Scenario.hao_de);
     bot_response no_speech_response]
  /\ history_of Scenario.sid1
       (serve Scenario.prompt Run.two_clients Scenario.world0)
     = [(Scenario.ni_hao, Scenario.hao_de)].
Proof. split; vm_compute; reflexivity. Qed.

(* ===================================================================== *)
(** ** Start-up *)
(* ===================================================================== *)

Lemma make_directories_calls benv d ds :
  (make_directories benv (d :: ds)).1 <> [].
Proof.
  cbn [make_directories]. destruct (makedirs benv d); [| discriminate].
  destruct (make_directories benv ds). discriminate.
Qed.

(** X17.  The import stops right away, with the error "Please set
    ELEVENLABS_API_KEY in .env file" and before any directory is created
    or anything is initialised, exactly when [ELEVENLABS_API_KEY] is unset
    or empty. *)
Theorem X17_startup_needs_api_key (benv : BootEnv) :
  (environ benv !! py "ELEVENLABS_API_KEY" = None
   \/ environ benv !! py "ELEVENLABS_API_KEY" = Some [])
  <-> startup benv
      = mkBoot [] [py "ELEVENLABS_API_KEY not found!"] (Err key_missing).
Proof.
  unfold startup. split.
  - intros [-> | ->]; reflexivity.
  - destruct (environ benv !! py "ELEVENLABS_API_KEY") as [[| c k] |];
      [right; reflexivity | | left; reflexivity].
    cbn [falsy]. intros H. exfalso.
    pose proof (make_directories_calls benv COMBINED_AUDIO_DIR [METADATA_DIR])
      as Hne.
    destruct (make_directories benv [COMBINED_AUDIO_DIR; METADATA_DIR])
      as [cs [[] | e]]; cbn [fst] in Hne.
    + destruct (initialize_calendar benv) as [[] | e];
        [destruct (initialize_vad benv) |]; injection H as H _ _;
        destruct cs; discriminate.
    + injection H as H _. congruence.
Qed.

(** X18.  A failure of [initialize_vad()] does not stop the server: with a
    key set, the directories created and the calendar initialised, the
    import succeeds whatever the VAD does, with the provider taken from
    [LLM_PROVIDER] in lower case ('cohere' when the variable is unset); a
    VAD failure only leaves two warnings in the log. *)
Theorem X18_vad_failure_is_tolerated (benv : BootEnv) (key : str) :
  environ benv !! py "ELEVENLABS_API_KEY" = Some key ->
  key <> [] ->
  makedirs benv COMBINED_AUDIO_DIR = Ok tt ->
  makedirs benv METADATA_DIR = Ok tt ->
  initialize_calendar benv = Ok tt ->
  boot_result (startup benv)
  = Ok {| ELEVENLABS_API_KEY := key;
          LLM_PROVIDER :=
            lower benv
              (match environ benv !! py "LLM_PROVIDER" with
               | Some p => p
               | None => py "cohere"
               end);
          OPENROUTER_API_KEY := environ benv !! py "OPENROUTER_API_KEY";
          COHERE_API_KEY := environ benv !! py "COHERE_API_KEY" |}
  /\ boot_calls (startup benv)
     = [call_makedirs COMBINED_AUDIO_DIR; call_makedirs METADATA_DIR;
        call_initialize_calendar; call_initialize_vad]
  /\ boot_log (startup benv)
     = match initialize_vad benv with
       | Ok _ => []
       | Err e => vad_warnings e
       end.
Proof.
  intros Hk Hne%falsy_false Hd1 Hd2 Hc. unfold startup.
  rewrite Hk, Hne. cbn [make_directories]. rewrite Hd1, Hd2, Hc.
  destruct (environ benv !! py "LLM_PROVIDER");
    destruct (initialize_vad benv); repeat split.
Qed.

Lemma X18_vad_failure_is_tolerated_witness :
  boot_result (startup (Run.boot Run.vars_ok (Err (py "No module named torchcodec"))))
  = Ok {| ELEVENLABS_API_KEY := py "sk_test";
          LLM_PROVIDER := py "openrouter";
          OPENROUTER_API_KEY := None;
          COHERE_API_KEY := None |}
  /\ boot_calls (startup (Run.boot Run.vars_ok (Err (py "No module named torchcodec"))))
     = [call_makedirs COMBINED_AUDIO_DIR; call_makedirs METADATA_DIR;
        call_initialize_calendar; call_initialize_vad]
  /\ boot_log (startup (Run.boot Run.vars_ok (Err (py "No module named torchcodec"))))
     = vad_warnings (py "No module named torchcodec").
Proof.
  assert (py "sk_test" <> []) as Hne by discriminate.
  exact (X18_vad_failure_is_tolerated
           (Run.boot Run.vars_ok (Err (py "No module named torchcodec")))
           (py "sk_test") eq_refl Hne eq_refl eq_refl eq_refl).
Defined.

(** X19.  The start-up steps run in order and stop at the first failure:
    an import that succeeds has created the two recording directories,
    then initialised the calendar, then tried the VAD; an import that
    fails has not tried the VAD, and has not initialised the calendar
    unless it is the calendar that failed. *)
Theorem X19_startup_steps_in_order (benv : BootEnv) :
  match boot_result (startup benv) with
  | Ok _ =>
      boot_calls (startup benv)
      = [call_makedirs COMBINED_AUDIO_DIR; call_makedirs METADATA_DIR;
         call_initialize_calendar; call_initialize_vad]
  | Err e =>
      (call_initialize_vad ∉ boot_calls (startup benv))
      /\ (call_initialize_calendar ∈ boot_calls (startup benv) ->
          initialize_calendar benv = Err e)
  end.
Proof.
  unfold startup.
  destruct (environ benv !! py "ELEVENLABS_API_KEY") as [[| c k] |];
    cbn [falsy boot_result boot_calls];
    try (split; [apply not_elem_of_nil | intros H; apply elem_of_nil in H; destruct H]).
  cbn [make_directories].
  destruct (makedirs benv COMBINED_AUDIO_DIR) as [[] | e1];
    cbn [boot_result boot_calls].
  2:{ split.
      - rewrite not_elem_of_cons. split; [discriminate | apply not_elem_of_nil].
      - intros H. apply list_elem_of_singleton in H. discriminate H. }
  destruct (makedirs benv METADATA_DIR) as [[] | e2];
    cbn [boot_result boot_calls].
  2:{ split.
      - rewrite !not_elem_of_cons.
        repeat split; try discriminate. apply not_elem_of_nil.
      - intros H. rewrite !elem_of_cons in H.
        destruct H as [H | [H | H]]; try discriminate H.
        apply elem_of_nil in H. destruct H. }
  destruct (initialize_calendar benv) as [[] | e3];
    cbn [boot_result boot_calls].
  - destruct (initialize_vad benv); reflexivity.
  - split; [| reflexivity]. cbn [app]. rewrite !not_elem_of_cons.
    repeat split; try discriminate. apply not_elem_of_nil.
Qed.
